(** * A shallow embedding of the document-ingestion pipeline of
      ai-resume-analyzer ([src/utils/fileHandler.js]) and of the retrying
      Gemini client [callGeminiAPI] of the application component.

    Modelling conventions.
    - JS strings are modelled as [string] over ASCII; [length] is
      [String.length] and [trim] strips the ASCII white-space characters.
    - File sizes and HTTP status codes are integers ([Z]).
    - An async function that resolves with [v] returns [Ok v]; one that
      rejects (throws) with an [Error] whose message is [m] returns [Err m].
    - The outside world (the browser file API, pdf.js, mammoth, Tesseract,
      the network) is an explicit environment record; the one piece of
      process-wide mutable state, the memoised pdf.js loader promise, is
      threaded explicitly.
    - Progress callbacks are pure observers in the source (they are only
      ever called, their results are ignored); they are not modelled. *)

From Stdlib Require Import String Ascii List ZArith Bool Lia.
Import ListNotations.
Open Scope string_scope.
Open Scope Z_scope.

(** ** Results of async computations *)

Inductive Exc (A : Type) : Type :=
| Ok : A -> Exc A
| Err : string -> Exc A.
Arguments Ok {A} _.
Arguments Err {A} _.

Module Js.

(** ASCII white space as recognised by [String.prototype.trim]. *)
Definition is_ws (c : ascii) : bool :=
  let n := nat_of_ascii c in
  (Nat.eqb n 32 || Nat.eqb n 9 || Nat.eqb n 10 || Nat.eqb n 11
   || Nat.eqb n 12 || Nat.eqb n 13)%bool.

Fixpoint drop_ws (l : list ascii) : list ascii :=
  match l with
  | [] => []
  | c :: l' => if is_ws c then drop_ws l' else l
  end.

(** [s.trim()] *)
Definition trim (s : string) : string :=
  string_of_list_ascii
    (rev (drop_ws (rev (drop_ws (list_ascii_of_string s))))).

(** [arr.join(sep)] *)
Fixpoint join (sep : string) (l : list string) : string :=
  match l with
  | [] => ""
  | [x] => x
  | x :: l' => x ++ sep ++ join sep l'
  end.

Definition digit (d : Z) : string :=
  String (ascii_of_nat (48 + Z.to_nat d)) EmptyString.

Fixpoint digits_aux (fuel : nat) (n : Z) (acc : string) : string :=
  match fuel with
  | O => acc
  | S f =>
      if n <? 10 then digit n ++ acc
      else digits_aux f (n / 10) (digit (n mod 10) ++ acc)
  end.

(** [String(n)] for a non-negative integer [n]. *)
Definition z_to_string (n : Z) : string :=
  if n <? 0 then "-" ++ digits_aux (S (Z.to_nat (Z.log2 (- n)))) (- n) ""
  else digits_aux (S (Z.to_nat (Z.log2 n))) n "".

Definition nat_to_string (n : nat) : string := z_to_string (Z.of_nat n).

(** [(num / den).toFixed(2)] for [num >= 0], [den > 0]: the integer [k]
    closest to [100 * num / den], the larger one on a tie, printed as
    [k / 100] with two decimals. *)
Definition to_fixed2 (num den : Z) : string :=
  let k := (200 * num + den) / (2 * den) in
  let frac := k mod 100 in
  z_to_string (k / 100) ++ "."
    ++ (if frac <? 10 then "0" ++ z_to_string frac else z_to_string frac).

End Js.

(** ** Files and validation (fileHandler.js, lines 10-80) *)

Module FileHandler.

(** A browser [File]: its name, size in bytes, declared MIME type and
    its bytes. *)
Record File : Type := mkFile {
  name : string;
  size : Z;
  type : string;
  contents : string
}.

Record FileTypeInfo : Type := mkInfo { extension : string; type_name : string }.

(** The value of [SUPPORTED_FILE_TYPES[key]]: an own entry of the object
    literal, or a member inherited from [Object.prototype] (every such
    member is a function or an object, hence truthy). *)
Inductive Lookup : Type :=
| OwnEntry : FileTypeInfo -> Lookup
| Inherited : string -> Lookup.

Definition SUPPORTED_FILE_TYPES : list (string * FileTypeInfo) :=
  [ ("application/pdf", mkInfo ".pdf" "PDF");
    ("text/plain", mkInfo ".txt" "Text");
    ("application/vnd.openxmlformats-officedocument.wordprocessingml.document",
       mkInfo ".docx" "Word Document");
    ("application/msword", mkInfo ".doc" "Word Document");
    ("image/png", mkInfo ".png" "PNG Image");
    ("image/jpeg", mkInfo ".jpg" "JPEG Image");
    ("image/jpg", mkInfo ".jpg" "JPEG Image") ].

(** Property names of [Object.prototype]. *)
Definition object_prototype_keys : list string :=
  [ "constructor"; "__proto__"; "toString"; "toLocaleString"; "valueOf";
    "hasOwnProperty"; "isPrototypeOf"; "propertyIsEnumerable";
    "__defineGetter__"; "__defineSetter__"; "__lookupGetter__";
    "__lookupSetter__" ].

Fixpoint assoc (k : string) (l : list (string * FileTypeInfo))
  : option FileTypeInfo :=
  match l with
  | [] => None
  | (k', v) :: l' => if String.eqb k k' then Some v else assoc k l'
  end.

(** [SUPPORTED_FILE_TYPES[key]], [None] standing for [undefined]. *)
Definition lookup_supported (key : string) : option Lookup :=
  match assoc key SUPPORTED_FILE_TYPES with
  | Some info => Some (OwnEntry info)
  | None =>
      if existsb (String.eqb key) object_prototype_keys
      then Some (Inherited key) else None
  end.

Definition MAX_FILE_SIZE : Z := 10 * 1024 * 1024.
Definition MAX_FILES : nat := 5.

Record Validation : Type := mkValidation { v_success : bool; v_message : string }.

Definition validateFile (file : File) : Validation :=
  if MAX_FILE_SIZE <? size file then
    mkValidation false
      ("File size exceeds 10MB limit. Current size: "
         ++ Js.to_fixed2 (size file) (1024 * 1024) ++ "MB")
  else
    match lookup_supported (type file) with
    | None =>
        mkValidation false
          ("Unsupported file type: " ++ type file
             ++ ". Supported types: PDF, TXT, DOCX, DOC, PNG, JPG")
    | Some _ => mkValidation true "File is valid"
    end.

Record BatchValidation : Type := mkBatchValidation {
  b_success : bool;
  validFiles : list File;
  errors : list string
}.

(** The [for] loop of [validateMultipleFiles]: valid files and errors,
    both in input order. *)
Fixpoint partition_files (files : list File) : list File * list string :=
  match files with
  | [] => ([], [])
  | file :: rest =>
      let '(vs, es) := partition_files rest in
      let validation := validateFile file in
      if v_success validation then (file :: vs, es)
      else (vs, (name file ++ ": " ++ v_message validation) :: es)
  end.

Definition validateMultipleFiles (files : list File) : BatchValidation :=
  if Nat.ltb MAX_FILES (length files) then
    mkBatchValidation false []
      ["Maximum " ++ Js.nat_to_string MAX_FILES ++ " files allowed. You selected "
         ++ Js.nat_to_string (length files) ++ " files."]
  else
    let '(vs, es) := partition_files files in
    mkBatchValidation (Nat.eqb (length es) 0) vs es.


(** ** The outside world *)

(** A page of a loaded PDF document: what [page.getTextContent()]
    resolves with (the [str] of each text item) and the PNG buffer
    obtained by rendering the page at scale 2 onto a canvas and reading
    the canvas back ([page.render], [canvas.toDataURL], [fetch],
    [arrayBuffer]). *)
Record PdfPage : Type := mkPage {
  getTextContent : Exc (list string);
  render_png : Exc string
}.

(** A loaded PDF document: the outcome of [pdf.getPage(i)] for
    [i = 1 .. numPages]. *)
Definition PdfDocument : Type := list (Exc PdfPage).

Record Env : Type := mkEnv {
  (** whether [file.arrayBuffer()] / [FileReader.readAsText(file)] can
      read the file's bytes *)
  file_readable : File -> bool;
  (** whether the [n]-th injected pdf.js [<script>] tag fires [onload]
      (true) or [onerror] (false) *)
  cdn_script_loads : nat -> bool;
  (** [pdfjsLib.getDocument({ data }).promise] *)
  pdf_getDocument : string -> Exc PdfDocument;
  (** [mammoth.extractRawText({ buffer })], its [value] *)
  mammoth_extractRawText : string -> Exc string;
  (** [Tesseract.recognize(buffer, 'eng', ...)], its [data.text] *)
  tesseract_recognize : string -> Exc string
}.

(** The module-level mutable state: [pdfjsLibPromise] ([None] is [null],
    [Some p] a settled promise with outcome [p]) and the number of
    [<script>] tags appended to [document.head] so far. *)
Record St : Type := mkSt {
  pdfjsLibPromise : option (Exc unit);
  scripts_appended : nat
}.

Definition initial_state : St := mkSt None O.

(** ** A state and exception monad for the async functions *)

Definition M (A : Type) : Type := St -> Exc A * St.

Definition ret {A} (a : A) : M A := fun st => (Ok a, st).
Definition throw {A} (m : string) : M A := fun st => (Err m, st).
Definition lift {A} (e : Exc A) : M A := fun st => (e, st).
Definition bind {A B} (m : M A) (k : A -> M B) : M B :=
  fun st => match m st with
            | (Ok a, st') => k a st'
            | (Err e, st') => (Err e, st')
            end.
(** [try { m } catch (error) { h(error.message) }] *)
Definition catch {A} (m : M A) (h : string -> M A) : M A :=
  fun st => match m st with
            | (Ok a, st') => (Ok a, st')
            | (Err e, st') => h e st'
            end.

Notation "x <- m ;; k" := (bind m (fun x => k))
  (at level 61, m at next level, right associativity).

Section Pipeline.

Variable env : Env.

(** [file.arrayBuffer()] *)
Definition arrayBuffer (file : File) : Exc string :=
  if file_readable env file then Ok (contents file)
  else Err "The requested file could not be read".

(** The promise built around [FileReader.readAsText(file)] in the
    [text/plain] case of [extractTextFromFile]. *)
Definition readAsText (file : File) : Exc string :=
  if file_readable env file then Ok (contents file)
  else Err "Failed to read text file".

(** [loadPdfJs] (lines 357-375). *)
Definition loadPdfJs : M unit :=
  fun st =>
    match pdfjsLibPromise st with
    | Some p => (p, st)
    | None =>
        let p := if cdn_script_loads env (scripts_appended st) then Ok tt
                 else Err "Failed to load PDF.js library from CDN." in
        (p, mkSt (Some p) (S (scripts_appended st)))
    end.

(** The page loop of [extractTextFromPDF]. *)
Fixpoint pdf_text_loop (pages : PdfDocument) (fullText : string) : Exc string :=
  match pages with
  | [] => Ok fullText
  | Err e :: _ => Err e
  | Ok page :: rest =>
      match getTextContent page with
      | Err e => Err e
      | Ok items => pdf_text_loop rest (fullText ++ Js.join " " items ++ "
")
      end
  end.

(** [extractTextFromPDF] (lines 116-132). *)
Definition extractTextFromPDF (pdfBuffer : string) : M string :=
  catch
    (_ <- loadPdfJs ;;
     pdf <- lift (pdf_getDocument env pdfBuffer) ;;
     fullText <- lift (pdf_text_loop pdf "") ;;
     ret (Js.trim fullText))
    (fun m => throw ("Failed to extract text from PDF: " ++ m)).

(** The page loop of [isScannedPDF]. *)
Fixpoint scan_loop (pages : PdfDocument) (totalTextLength : nat) : Exc nat :=
  match pages with
  | [] => Ok totalTextLength
  | Err e :: _ => Err e
  | Ok page :: rest =>
      match getTextContent page with
      | Err e => Err e
      | Ok items =>
          scan_loop rest (totalTextLength + String.length (Js.join " " items))
      end
  end.

(** [isScannedPDF] (lines 87-109). *)
Definition isScannedPDF (pdfBuffer : string) : M bool :=
  catch
    (_ <- loadPdfJs ;;
     pdf <- lift (pdf_getDocument env pdfBuffer) ;;
     let maxPagesToCheck := Nat.min (length pdf) 3 in
     totalTextLength <- lift (scan_loop (firstn maxPagesToCheck pdf) 0) ;;
     ret (Nat.ltb totalTextLength 50))
    (fun _ => ret false).

(** [extractTextFromDocx] (lines 139-146). *)
Definition extractTextFromDocx (docBuffer : string) : Exc string :=
  match mammoth_extractRawText env docBuffer with
  | Ok value => Ok (Js.trim value)
  | Err m => Err ("Failed to extract text from Word document: " ++ m)
  end.

(** [extractTextFromImage] (lines 155-173). *)
Definition extractTextFromImage (imageBuffer : string) : Exc string :=
  match tesseract_recognize env imageBuffer with
  | Ok text => Ok (Js.trim text)
  | Err m => Err ("Failed to extract text from image: " ++ m)
  end.

(** The page loop of [processScannedPDF]. *)
Fixpoint ocr_loop (pages : PdfDocument) (fullText : string) : Exc string :=
  match pages with
  | [] => Ok fullText
  | Err e :: _ => Err e
  | Ok page :: rest =>
      match render_png page with
      | Err e => Err e
      | Ok imageBuffer =>
          match extractTextFromImage imageBuffer with
          | Err e => Err e
          | Ok pageText => ocr_loop rest (fullText ++ pageText ++ "

")
          end
      end
  end.

(** [processScannedPDF] (lines 182-227). *)
Definition processScannedPDF (pdfBuffer fileName : string) : M string :=
  catch
    (_ <- loadPdfJs ;;
     pdf <- lift (pdf_getDocument env pdfBuffer) ;;
     fullText <- lift (ocr_loop pdf "") ;;
     ret (Js.trim fullText))
    (fun m => throw ("Failed to process scanned PDF: " ++ m)).

(** [ExtractionResult]: the two object shapes returned by
    [extractTextFromFile]. *)
Inductive ExtractionResult : Type :=
| Success (text method fileName : string) (fileSize : Z) (fileType : string)
| Failure (error fileName : string) (fileSize : Z) (fileType : string).

Definition is_success (r : ExtractionResult) : bool :=
  match r with Success _ _ _ _ _ => true | Failure _ _ _ _ => false end.

(** The [switch (file.type)] of [extractTextFromFile]: the extracted text
    and the processing method. *)
Definition extract_by_type (file : File) (fileBuffer : string)
  : M (string * string) :=
  let t := type file in
  if String.eqb t "text/plain" then
    extractedText <- lift (readAsText file) ;;
    ret (extractedText, "Direct text reading")
  else if String.eqb t "application/pdf" then
    extractedText <- extractTextFromPDF fileBuffer ;;
    if Nat.ltb (String.length extractedText) 50 then
      ocrText <- processScannedPDF fileBuffer (name file) ;;
      ret (ocrText, "OCR (scanned PDF)")
    else ret (extractedText, "PDF text extraction")
  else if (String.eqb t
             "application/vnd.openxmlformats-officedocument.wordprocessingml.document"
           || String.eqb t "application/msword")%bool then
    extractedText <- lift (extractTextFromDocx fileBuffer) ;;
    ret (extractedText, "Word document extraction")
  else if (String.eqb t "image/png" || String.eqb t "image/jpeg"
           || String.eqb t "image/jpg")%bool then
    extractedText <- lift (extractTextFromImage fileBuffer) ;;
    ret (extractedText, "OCR (image)")
  else throw ("Unsupported file type: " ++ t).

(** [extractTextFromFile] (lines 235-311): validation and the buffer read
    precede the [try]; everything inside the [try] is turned into a
    failure-shaped result. *)
Definition extractTextFromFile (file : File) : M ExtractionResult :=
  let validation := validateFile file in
  if negb (v_success validation) then throw (v_message validation)
  else
    fileBuffer <- lift (arrayBuffer file) ;;
    catch
      (r <- extract_by_type file fileBuffer ;;
       let '(extractedText, processingMethod) := r in
       if Nat.eqb (String.length (Js.trim extractedText)) 0
       then throw "No text content found in the file"
       else ret (Success extractedText processingMethod
                   (name file) (size file) (type file)))
      (fun m => ret (Failure m (name file) (size file) (type file))).

(** The sequential [for] loop of [processMultipleFiles]: one awaited
    [extractTextFromFile] per file, results pushed in order. *)
Fixpoint process_loop (files : list File) : M (list ExtractionResult) :=
  match files with
  | [] => ret []
  | file :: rest =>
      result <- extractTextFromFile file ;;
      results <- process_loop rest ;;
      ret (result :: results)
  end.

(** [processMultipleFiles] (lines 319-355). *)
Definition processMultipleFiles (files : list File) : M (list ExtractionResult) :=
  let validation := validateMultipleFiles files in
  if negb (b_success validation) then
    throw ("File validation failed: " ++ Js.join ", " (errors validation))
  else process_loop (validFiles validation).

End Pipeline.

End FileHandler.

(** ** The retrying Gemini client ([callGeminiAPI], application component) *)

Module Gemini.

(** What the [n]-th [fetch(apiUrl, { method: 'POST', ... })] produces. *)
Inductive Body : Type :=
(** [response.json()] rejects *)
| BodyUnparsable (msg : string)
(** [response.json()] resolves; [text] is the value of
    [result.candidates?.[0]?.content?.parts?.[0]?.text], [None] when
    that chain yields [undefined] (or [null]) *)
| BodyParsed (text : option string).

Inductive Response : Type :=
| FetchRejected (msg : string)
| Http (ok : bool) (status : Z) (statusText : string) (body : Body).

(** Observable effects of the client: the [n]-th POST, and an awaited
    [setTimeout] of [ms] milliseconds. *)
Inductive Event : Type :=
| EvFetch (attempt : nat)
| EvSleep (ms : Z).

Section Client.

(** The parsed JSON values and [JSON.parse]. *)
Variable Json : Type.
Variable json_parse : string -> Exc Json.
(** The server's answer to the request of attempt [n]. *)
Variable responses : nat -> Response.

(** The body of the [try] block of one iteration. *)
Definition attempt_once (response : Response) : Exc Json :=
  match response with
  | FetchRejected m => Err m
  | Http ok status statusText body =>
      if negb ok then
        Err ("API Error: " ++ Js.z_to_string status ++ " " ++ statusText)
      else
        match body with
        | BodyUnparsable m => Err m
        | BodyParsed None => Err "Invalid response structure from API."
        | BodyParsed (Some text) =>
            if String.eqb text "" then Err "Invalid response structure from API."
            else json_parse text
        end
  end.

(** The [while (attempt < maxRetries)] loop; [fuel] bounds the number of
    iterations (each one increments [attempt]).  The result [Ok None]
    stands for the [undefined] returned when the loop exits normally. *)
Fixpoint retry_loop (maxRetries fuel attempt : nat) (delay : Z)
  : list Event * Exc (option Json) :=
  match fuel with
  | O => ([], Ok None)
  | S fuel' =>
      if Nat.ltb attempt maxRetries then
        match attempt_once (responses attempt) with
        | Ok parsed => ([EvFetch attempt], Ok (Some parsed))
        | Err err =>
            let attempt' := S attempt in
            if Nat.leb maxRetries attempt' then ([EvFetch attempt], Err err)
            else
              let '(trace, r) := retry_loop maxRetries fuel' attempt' (delay * 2) in
              (EvFetch attempt :: EvSleep delay :: trace, r)
        end
      else ([], Ok None)
  end.

(** [callGeminiAPI(payload, maxRetries)]; [apiKey] is
    [import.meta.env.VITE_GEMINI_API_KEY] ([None] when undefined). *)
Definition callGeminiAPI (apiKey : option string) (maxRetries : nat)
  : list Event * Exc (option Json) :=
  let missing :=
    ([], Err "Gemini API key not configured. Please add VITE_GEMINI_API_KEY to your .env file.") in
  match apiKey with
  | None => missing
  | Some k =>
      if String.eqb k "" then missing
      else retry_loop maxRetries maxRetries 0 1000
  end.

End Client.

Arguments attempt_once {Json} json_parse response.
Arguments retry_loop {Json} json_parse responses maxRetries fuel attempt delay.
Arguments callGeminiAPI {Json} json_parse responses apiKey maxRetries.

End Gemini.

(** ** Concrete inputs *)

Module Samples.
Import FileHandler.

Definition text_page : PdfPage :=
  mkPage (Ok ["Experienced software engineer with ten years of";
              "building web applications in JavaScript"]) (Ok "page-1.png").

Definition image_only_page : PdfPage := mkPage (Ok []) (Ok "scan-1.png").

Definition env : Env :=
  mkEnv
    (fun f => negb (String.eqb (name f) "locked.pdf"))
    (fun _ => true)
    (fun buf =>
       if String.eqb buf "%PDF-text" then Ok [Ok text_page]
       else if String.eqb buf "%PDF-scan" then Ok [Ok image_only_page]
       else Err "Invalid PDF structure.")
    (fun buf => Ok buf)
    (fun buf =>
       if String.eqb buf "scan-1.png" then Ok "  Scanned resume text
"
       else Err "Error attempting to read image.").

(** The same world with the pdf.js CDN unreachable. *)
Definition offline_env : Env :=
  mkEnv (file_readable env) (fun _ => false) (pdf_getDocument env)
    (mammoth_extractRawText env) (tesseract_recognize env).

Definition txt_file : File := mkFile "cv.txt" 13 "text/plain" " Hello World
".
Definition gif_file : File := mkFile "photo.gif" 2048 "image/gif" "GIF89a".
Definition jpg_file : File := mkFile "scan.jpg" 2048 "image/jpg" "scan-1.png".
Definition locked_pdf : File := mkFile "locked.pdf" 9 "application/pdf" "%PDF-text".

(** A world whose PDFs have a readable first page and a second page
    that cannot be fetched. *)
Definition broken_page_env : Env :=
  mkEnv (fun _ => true) (fun _ => true)
    (fun _ => Ok [Ok text_page; Err "Invalid page request"])
    (fun b => Ok b) (fun b => Ok b).

Definition failed_cdn_state : St :=
  mkSt (Some (Err "Failed to load PDF.js library from CDN.")) 1.

(** A Word file, and a file whose declared type is an [Object.prototype]
    property name. *)
Definition doc_file : File :=
  mkFile "cv.doc" 64 "application/msword" "  Resume in Word  ".
Definition proto_file : File := mkFile "notes" 10 "toString" "plain bytes".

(** A PNG that Tesseract cannot read. *)
Definition bad_png : File := mkFile "photo.png" 4096 "image/png" "not-an-image".

End Samples.

Import FileHandler.

(** ** Auxiliary definitions for the statements *)

Definition starts_non_ws (l : list ascii) : Prop :=
  match l with [] => True | c :: _ => Js.is_ws c = false end.

(** The [fileName], [fileSize] and [fileType] fields of a result. *)
Definition result_file (r : ExtractionResult) : string * Z * string :=
  match r with
  | Success _ _ n s t => (n, s, t)
  | Failure _ n s t => (n, s, t)
  end.

(** The text items of a page, or the error of [getPage]/[getTextContent]. *)
Definition page_items (p : Exc PdfPage) : Exc (list string) :=
  match p with Ok page => getTextContent page | Err e => Err e end.

Definition page_text_length (items : list string) : nat :=
  String.length (Js.join " " items).

(** The concatenation of a list of strings. *)
Fixpoint str_concat (l : list string) : string :=
  match l with [] => "" | x :: l' => x ++ str_concat l' end.

(** The OCR text of one page of a scanned PDF, or the error of
    [getPage], of the rendering, or of [extractTextFromImage]. *)
Definition page_ocr (env : Env) (p : Exc PdfPage) : Exc string :=
  match p with
  | Ok page =>
      match render_png page with
      | Ok img => extractTextFromImage env img
      | Err e => Err e
      end
  | Err e => Err e
  end.

(** [m], run from [st], leaves the module state either as it found it or
    as one call of [loadPdfJs] from [st] leaves it. *)
Definition one_load (env : Env) (st : St) {A} (m : M A) : Prop :=
  snd (m st) = st \/ snd (m st) = snd (loadPdfJs env st).

(** [m], run from [st], leaves the module state as it found it. *)
Definition keeps (st : St) {A} (m : M A) : Prop := snd (m st) = st.

Module GeminiSamples.
Import Gemini.

(** Responses of a flaky server: a network error, a 503, then a body
    whose text field holds [[72]]. *)
Definition flaky (n : nat) : Response :=
  match n with
  | O => FetchRejected "Failed to fetch"
  | 1%nat => Http false 503 "Service Unavailable" (BodyUnparsable "Unexpected end of JSON input")
  | _ => Http true 200 "OK" (BodyParsed (Some "[72]"))
  end.

(** The server first answers without the nested text field. *)
Definition shapeless_then_ok (n : nat) : Response :=
  match n with
  | O => Http true 200 "OK" (BodyParsed None)
  | _ => Http true 200 "OK" (BodyParsed (Some "[72]"))
  end.

Definition parse_id (s : string) : Exc string := Ok s.

End GeminiSamples.

(** ** Sequences of pipeline operations *)

(** The exported operations of fileHandler.js that touch the module
    state. *)
Inductive PipelineOp : Type :=
| OpExtractTextFromFile (file : File)
| OpProcessMultipleFiles (files : list File)
| OpIsScannedPDF (pdfBuffer : string)
| OpExtractTextFromPDF (pdfBuffer : string)
| OpProcessScannedPDF (pdfBuffer fileName : string).

(** The module state after one operation. *)
Definition run_op (env : Env) (op : PipelineOp) (st : St) : St :=
  match op with
  | OpExtractTextFromFile file => snd (extractTextFromFile env file st)
  | OpProcessMultipleFiles files => snd (processMultipleFiles env files st)
  | OpIsScannedPDF buf => snd (isScannedPDF env buf st)
  | OpExtractTextFromPDF buf => snd (extractTextFromPDF env buf st)
  | OpProcessScannedPDF buf n => snd (processScannedPDF env buf n st)
  end.

Fixpoint run_ops (env : Env) (ops : list PipelineOp) (st : St) : St :=
  match ops with
  | [] => st
  | op :: rest => run_ops env rest (run_op env op st)
  end.

(** ** The upload component ([EnhancedFileUpload.jsx]) *)

Module Upload.

(** Calls the component makes to its [onError] and [onFilesProcessed]
    props, in order. *)
Inductive UploadEvent : Type :=
| OnError (message : string)
| OnFilesProcessed (files : list ExtractionResult).

(** [`${result.fileName}: ${result.error}`]; [result.error] of a success
    object is [undefined]. *)
Definition failure_line (r : ExtractionResult) : string :=
  match r with
  | Failure e n _ _ => n ++ ": " ++ e
  | Success _ _ n _ _ => n ++ ": undefined"
  end.

(** [handleFiles(files)]: the prop calls it makes, the component's
    [uploadedFiles] afterwards, and the module state of fileHandler.js. *)
Definition handleFiles (env : Env) (files : list File)
  (uploadedFiles : list ExtractionResult) (st : St)
  : list UploadEvent * list ExtractionResult * St :=
  if Nat.eqb (length files) 0 then ([], uploadedFiles, st)
  else
    match processMultipleFiles env files st with
    | (Err m, st') => ([OnError m], [], st')
    | (Ok results, st') =>
        let successfulResults := filter is_success results in
        let failedResults := filter (fun r => negb (is_success r)) results in
        let err :=
          if Nat.ltb 0 (length failedResults)
          then [OnError ("Some files failed to process: "
                           ++ Js.join ", " (map failure_line failedResults))]
          else [] in
        if Nat.ltb 0 (length successfulResults)
        then ((err ++ [OnFilesProcessed successfulResults])%list, successfulResults, st')
        else (err, [], st')
    end.

(** [uploadedFiles.filter((_, i) => i !== index)], [j] the index of the
    head of [l]. *)
Fixpoint filter_index (index j : nat) (l : list ExtractionResult)
  : list ExtractionResult :=
  match l with
  | [] => []
  | x :: l' =>
      if Nat.eqb j index then filter_index index (S j) l'
      else x :: filter_index index (S j) l'
  end.

(** [removeFile(index)]: the new [uploadedFiles] and the prop call. *)
Definition removeFile (index : nat) (uploadedFiles : list ExtractionResult)
  : list ExtractionResult * list UploadEvent :=
  let newFiles := filter_index index 0 uploadedFiles in
  (newFiles, [OnFilesProcessed newFiles]).

End Upload.

(** ** The application's handlers for the upload props ([App]) *)

Module AppState.
Import Upload.

Record AppState : Type := mkApp { resume : string; uploadError : string }.

(** [file.text]; [Array.prototype.join] prints [undefined] as the empty
    string. *)
Definition result_text (r : ExtractionResult) : string :=
  match r with Success t _ _ _ _ => t | Failure _ _ _ _ => "" end.

(** [handleFilesProcessed(files)]. *)
Definition handleFilesProcessed (files : list ExtractionResult) (s : AppState)
  : AppState :=
  let combinedText := Js.join "

---

" (map result_text files) in
  mkApp combinedText "".

(** [handleUploadError(errorMessage)]. *)
Definition handleUploadError (errorMessage : string) (s : AppState) : AppState :=
  mkApp (resume s) errorMessage.

(** The application state after the component's prop calls, in order
    (the state updates of one handler run are applied in call order). *)
Definition apply_event (s : AppState) (ev : UploadEvent) : AppState :=
  match ev with
  | OnError m => handleUploadError m s
  | OnFilesProcessed files => handleFilesProcessed files s
  end.

Definition apply_events (s : AppState) (evs : list UploadEvent) : AppState :=
  fold_left apply_event evs s.

End AppState.

(** ** The Gemini request schedule *)

Module GeminiSchedule.
Import Gemini.

(** Requests [i], [i+1], ..., [i+k], separated by waits starting at
    [delay] and doubling. *)
Fixpoint schedule (k i : nat) (delay : Z) : list Event :=
  EvFetch i ::
  match k with
  | O => []
  | S k' => EvSleep delay :: schedule k' (S i) (delay * 2)
  end.

End GeminiSchedule.

(** * Properties *)

(** ** Validation *)

(** Closes [~ In x l] for concrete, pairwise distinct strings. *)
Ltac not_in :=
  simpl; let H := fresh "H" in
  intros H; repeat (destruct H as [H|H]; [discriminate|]); exact H.

Lemma assoc_not_in (k : string) (l : list (string * FileTypeInfo)) :
  ~ In k (map fst l) -> assoc k l = None.
Proof.
  induction l as [|[k' v] l IH]; simpl; intros Hn; [reflexivity|].
  destruct (String.eqb_spec k k') as [->|Hne]; [tauto|].
  apply IH; tauto.
Qed.

Lemma assoc_in (k : string) (l : list (string * FileTypeInfo)) :
  In k (map fst l) -> exists v, assoc k l = Some v.
Proof.
  induction l as [|[k' v] l IH]; simpl; [tauto|].
  destruct (String.eqb_spec k k') as [->|Hne]; [eauto|].
  intros [H|H]; [congruence|auto].
Qed.

Lemma existsb_eqb_not_in (k : string) (l : list string) :
  ~ In k l -> existsb (String.eqb k) l = false.
Proof.
  intros Hn. apply Bool.not_true_is_false. intros Hex.
  apply existsb_exists in Hex as [x [Hx Heq]].
  apply String.eqb_eq in Heq. subst. tauto.
Qed.

Lemma validateFile_size_ok (file : File) :
  size file <= MAX_FILE_SIZE ->
  validateFile file =
  match lookup_supported (type file) with
  | None => mkValidation false
              ("Unsupported file type: " ++ type file
                 ++ ". Supported types: PDF, TXT, DOCX, DOC, PNG, JPG")
  | Some _ => mkValidation true "File is valid"
  end.
Proof.
  intros H. unfold validateFile.
  replace (MAX_FILE_SIZE <? size file) with false
    by (symmetry; apply Z.ltb_ge; exact H).
  reflexivity.
Qed.

(** C8 (amended): for a file within the size limit, [validateFile]
    accepts each of the seven own keys of [SUPPORTED_FILE_TYPES] (the six
    MIME types of the spec and [image/jpg]) and rejects every other type
    that is not a property name of [Object.prototype], with a message
    naming that type. *)
Theorem validateFile_type_allow_list (file : File)
  (Hsize : size file <= MAX_FILE_SIZE) :
  (In (type file)
     ["application/pdf"; "text/plain";
      "application/vnd.openxmlformats-officedocument.wordprocessingml.document";
      "application/msword"; "image/png"; "image/jpeg"; "image/jpg"] ->
   validateFile file = mkValidation true "File is valid") /\
  (~ In (type file)
       ["application/pdf"; "text/plain";
        "application/vnd.openxmlformats-officedocument.wordprocessingml.document";
        "application/msword"; "image/png"; "image/jpeg"; "image/jpg"] ->
   ~ In (type file) object_prototype_keys ->
   validateFile file =
   mkValidation false
     ("Unsupported file type: " ++ type file
        ++ ". Supported types: PDF, TXT, DOCX, DOC, PNG, JPG")).
Proof.
  rewrite (validateFile_size_ok file Hsize). unfold lookup_supported.
  split.
  - intros Hin. destruct (assoc_in (type file) SUPPORTED_FILE_TYPES Hin) as [v ->].
    reflexivity.
  - intros Hn Hp.
    rewrite (assoc_not_in (type file) SUPPORTED_FILE_TYPES Hn).
    rewrite (existsb_eqb_not_in (type file) object_prototype_keys Hp).
    reflexivity.
Qed.

(** Witness for C8 at a 2 KiB GIF and a 2 KiB JPEG. *)
Lemma validateFile_type_allow_list_witness :
  validateFile Samples.jpg_file = mkValidation true "File is valid" /\
  validateFile Samples.gif_file =
  mkValidation false
    "Unsupported file type: image/gif. Supported types: PDF, TXT, DOCX, DOC, PNG, JPG".
Proof.
  assert (Hj : size Samples.jpg_file <= MAX_FILE_SIZE) by (vm_compute; discriminate).
  assert (Hg : size Samples.gif_file <= MAX_FILE_SIZE) by (vm_compute; discriminate).
  split.
  - apply (proj1 (validateFile_type_allow_list Samples.jpg_file Hj)).
    simpl; tauto.
  - apply (proj2 (validateFile_type_allow_list Samples.gif_file Hg));
      not_in.
Defined.

(** C8 (counterexample): the type [image/jpg], outside the six listed
    MIME types, is accepted. *)
Lemma validateFile_accepts_image_jpg :
  ~ In (type Samples.jpg_file)
      ["application/pdf"; "text/plain";
       "application/vnd.openxmlformats-officedocument.wordprocessingml.document";
       "application/msword"; "image/png"; "image/jpeg"] /\
  size Samples.jpg_file <= MAX_FILE_SIZE /\
  v_success (validateFile Samples.jpg_file) = true.
Proof.
  split; [|split; [vm_compute; discriminate|reflexivity]].
  not_in.
Qed.

Lemma partition_files_all_valid (files : list File) :
  forallb (fun f => v_success (validateFile f)) files = true ->
  partition_files files = (files, []).
Proof.
  induction files as [|f files IH]; simpl; [reflexivity|].
  intros H. apply andb_prop in H as [Hf Hr].
  rewrite (IH Hr), Hf. reflexivity.
Qed.

Lemma partition_files_some_invalid (files : list File) :
  forallb (fun f => v_success (validateFile f)) files = false ->
  snd (partition_files files) <> [].
Proof.
  induction files as [|f files IH]; simpl; [discriminate|].
  destruct (partition_files files) as [vs es].
  destruct (v_success (validateFile f)); simpl; [exact IH|discriminate].
Qed.

(** C1 (amended): [processMultipleFiles] raises
    ["File validation failed: " ++ errors] whenever [validateMultipleFiles]
    reports an error: when the batch has more than [MAX_FILES] files, and
    also when any single file fails [validateFile].  Only a batch within
    the maximum whose files all pass goes on, and then every file is given
    to [extractTextFromFile] in input order. *)
Theorem processMultipleFiles_validation_gate (env : Env) (files : list File) (st : St) :
  processMultipleFiles env files st =
  if (Nat.leb (length files) MAX_FILES
      && forallb (fun f => v_success (validateFile f)) files)%bool
  then process_loop env files st
  else (Err ("File validation failed: "
               ++ Js.join ", " (errors (validateMultipleFiles files))), st).
Proof.
  unfold processMultipleFiles, validateMultipleFiles.
  rewrite Nat.leb_antisym.
  destruct (Nat.ltb MAX_FILES (length files)); simpl; [reflexivity|].
  destruct (forallb (fun f => v_success (validateFile f)) files) eqn:Hall.
  - rewrite (partition_files_all_valid files Hall). reflexivity.
  - pose proof (partition_files_some_invalid files Hall) as Hne.
    destruct (partition_files files) as [vs es]; simpl in *.
    destruct es; [congruence|]. reflexivity.
Qed.

(** C1 (counterexample): a batch of two files, within the maximum of
    five, one of them a GIF: the whole call rejects instead of returning
    per-file results. *)
Lemma processMultipleFiles_rejects_small_batch :
  (length [Samples.gif_file; Samples.txt_file] <= MAX_FILES)%nat /\
  processMultipleFiles Samples.env [Samples.gif_file; Samples.txt_file] initial_state =
  (Err "File validation failed: photo.gif: Unsupported file type: image/gif. Supported types: PDF, TXT, DOCX, DOC, PNG, JPG",
   initial_state).
Proof. split; [simpl; unfold MAX_FILES; lia | reflexivity]. Qed.

(** ** Per-file processing *)

(** Once validation and the buffer read are past, [extractTextFromFile]
    resolves, with a result carrying the file's name, size and type. *)
Lemma extractTextFromFile_after_read (env : Env) (file : File) (st : St) :
  v_success (validateFile file) = true ->
  file_readable env file = true ->
  exists r st', extractTextFromFile env file st = (Ok r, st') /\
                result_file r = (name file, size file, type file).
Proof.
  intros Hv Hr. unfold extractTextFromFile. rewrite Hv. simpl.
  unfold bind at 1, lift, arrayBuffer. rewrite Hr.
  unfold catch, bind.
  destruct (extract_by_type env file (contents file) st) as [[[t m]|e] st1].
  - destruct (Nat.eqb (String.length (Js.trim t)) 0); unfold ret, throw;
      do 2 eexists; split; reflexivity.
  - unfold ret; do 2 eexists; split; reflexivity.
Qed.

(** C2 (amended): [extractTextFromFile] rejects with the validation
    message when the file fails [validateFile]; for a file that passes
    [validateFile] and whose bytes are read, it never rejects: the
    extraction by type runs inside the [try], an error it raises (or the
    "No text content" error of a blank text) is caught and returned as
    the failure-shaped result carrying that error's message, a non-blank
    text is returned as the success-shaped result, and every result
    carries the file's name, size and type. *)
Theorem extractTextFromFile_no_throw_after_validation
  (env : Env) (file : File) (st : St) :
  (v_success (validateFile file) = false ->
   extractTextFromFile env file st = (Err (v_message (validateFile file)), st)) /\
  (v_success (validateFile file) = true ->
   file_readable env file = true ->
   extractTextFromFile env file st =
   (let '(e, st1) := extract_by_type env file (contents file) st in
    (Ok (match e with
         | Ok (t, m) =>
             if Nat.eqb (String.length (Js.trim t)) 0
             then Failure "No text content found in the file"
                    (name file) (size file) (type file)
             else Success t m (name file) (size file) (type file)
         | Err msg => Failure msg (name file) (size file) (type file)
         end), st1)) /\
   (forall r st', extractTextFromFile env file st = (Ok r, st') ->
      result_file r = (name file, size file, type file))).
Proof.
  split.
  - intros Hv. unfold extractTextFromFile. rewrite Hv. reflexivity.
  - intros Hv Hr.
    assert (Heq : extractTextFromFile env file st =
      (let '(e, st1) := extract_by_type env file (contents file) st in
       (Ok (match e with
            | Ok (t, m) =>
                if Nat.eqb (String.length (Js.trim t)) 0
                then Failure "No text content found in the file"
                       (name file) (size file) (type file)
                else Success t m (name file) (size file) (type file)
            | Err msg => Failure msg (name file) (size file) (type file)
            end), st1))).
    { unfold extractTextFromFile. rewrite Hv. simpl.
      unfold bind at 1, lift, arrayBuffer. rewrite Hr.
      unfold catch, bind.
      destruct (extract_by_type env file (contents file) st)
        as [[[t m]|e] st1]; [|reflexivity].
      destruct (Nat.eqb (String.length (Js.trim t)) 0); reflexivity. }
    split; [exact Heq|].
    intros r st' H. rewrite Heq in H.
    destruct (extract_by_type env file (contents file) st) as [[[t m]|e] st1].
    + destruct (Nat.eqb (String.length (Js.trim t)) 0);
        injection H as <- _; reflexivity.
    + injection H as <- _; reflexivity.
Qed.

(** Witness for C2: a GIF is refused by validation; a PNG that OCR
    cannot read passes validation and resolves with the failure-shaped
    result carrying the OCR error. *)
Lemma extractTextFromFile_no_throw_after_validation_witness :
  extractTextFromFile Samples.env Samples.gif_file initial_state =
  (Err "Unsupported file type: image/gif. Supported types: PDF, TXT, DOCX, DOC, PNG, JPG",
   initial_state) /\
  extractTextFromFile Samples.env Samples.bad_png initial_state =
  (Ok (Failure "Failed to extract text from image: Error attempting to read image."
         "photo.png" 4096 "image/png"), initial_state).
Proof.
  split.
  - apply (proj1 (extractTextFromFile_no_throw_after_validation
                    Samples.env Samples.gif_file initial_state)).
    reflexivity.
  - rewrite (proj1 (proj2 (extractTextFromFile_no_throw_after_validation
                             Samples.env Samples.bad_png initial_state)
                          eq_refl eq_refl)).
    reflexivity.
Defined.

(** C2 (counterexample): for a GIF the call rejects instead of returning
    the failure-shaped result. *)
Lemma extractTextFromFile_throws_on_gif :
  extractTextFromFile Samples.env Samples.gif_file initial_state =
  (Err "Unsupported file type: image/gif. Supported types: PDF, TXT, DOCX, DOC, PNG, JPG",
   initial_state).
Proof. reflexivity. Qed.

(** A successful result's text is never blank. *)
Lemma extractTextFromFile_success_not_blank
  (env : Env) (file : File) (st st' : St) (t m n : string) (s : Z) (ty : string) :
  extractTextFromFile env file st = (Ok (Success t m n s ty), st') ->
  String.length (Js.trim t) <> 0%nat.
Proof.
  unfold extractTextFromFile.
  destruct (negb (v_success (validateFile file))); [discriminate|].
  unfold bind at 1, lift. destruct (arrayBuffer env file); [|discriminate].
  unfold catch, bind.
  destruct (extract_by_type env file s0 st) as [[[t0 m0]|e] st1]; [|discriminate].
  destruct (Nat.eqb (String.length (Js.trim t0)) 0) eqn:E; [discriminate|].
  simpl. intros H. inversion H; subst.
  apply Nat.eqb_neq. exact E.
Qed.

(** C3 (code bug): a plain-text file whose content has surrounding white
    space is returned with that white space: the success text is not
    [content.trim()]. *)
Theorem plain_text_result_not_trimmed :
  extractTextFromFile Samples.env Samples.txt_file initial_state =
  (Ok (Success " Hello World
" "Direct text reading" "cv.txt" 13 "text/plain"), initial_state) /\
  Js.trim (contents Samples.txt_file) = "Hello World" /\
  Js.trim (contents Samples.txt_file) <> contents Samples.txt_file.
Proof. split; [reflexivity|split; [reflexivity|discriminate]]. Qed.

(** ** [trim] is idempotent *)

Lemma drop_ws_starts (l : list ascii) : starts_non_ws (Js.drop_ws l).
Proof.
  induction l as [|c l IH]; simpl; [exact I|].
  destruct (Js.is_ws c) eqn:E; [exact IH|exact E].
Qed.

Lemma drop_ws_id (l : list ascii) : starts_non_ws l -> Js.drop_ws l = l.
Proof. destruct l as [|c l]; simpl; [reflexivity|intros ->; reflexivity]. Qed.

Lemma drop_ws_suffix (l : list ascii) : exists p, l = (p ++ Js.drop_ws l)%list.
Proof.
  induction l as [|c l [p Hp]]; simpl; [exists []; reflexivity|].
  destruct (Js.is_ws c); [exists (c :: p); simpl; congruence|exists []; reflexivity].
Qed.

Lemma trim_trim (s : string) : Js.trim (Js.trim s) = Js.trim s.
Proof.
  unfold Js.trim. rewrite list_ascii_of_string_of_list_ascii.
  set (l1 := Js.drop_ws (list_ascii_of_string s)).
  set (l2 := Js.drop_ws (rev l1)).
  assert (Hl2 : Js.drop_ws (rev l2) = rev l2).
  { apply drop_ws_id.
    pose proof (drop_ws_starts (list_ascii_of_string s)) as Hs. fold l1 in Hs.
    destruct (drop_ws_suffix (rev l1)) as [p Hp]. fold l2 in Hp.
    clearbody l1 l2.
    destruct l1 as [|c l1'].
    - simpl in Hp. symmetry in Hp. apply app_eq_nil in Hp as [_ ->]. exact I.
    - destruct l2 as [|x l2']; [exact I|].
      destruct (exists_last (l := x :: l2') ltac:(discriminate)) as [q [d Hq]].
      rewrite Hq in Hp |- *. simpl in Hp. rewrite app_assoc in Hp.
      apply app_inj_tail in Hp as [_ Hd]. subst d.
      rewrite rev_app_distr. exact Hs. }
  rewrite Hl2, rev_involutive, (drop_ws_id l2 (drop_ws_starts _)).
  reflexivity.
Qed.

(** ** The PDF path *)






(** ** The scanned-document detector *)

Lemma scan_loop_ok (pages : PdfDocument) (itemss : list (list string)) (n : nat) :
  map page_items pages = map Ok itemss ->
  scan_loop pages n = Ok (n + list_sum (map page_text_length itemss))%nat.
Proof.
  revert itemss n.
  induction pages as [|p pages IH]; intros [|items itemss] n H; simpl in H;
    try discriminate.
  - simpl. f_equal. lia.
  - injection H as Hp Hr.
    destruct p as [page|e]; simpl in Hp; [|discriminate].
    simpl. rewrite Hp, (IH itemss _ Hr).
    f_equal. unfold page_text_length. simpl. lia.
Qed.

Lemma scan_loop_inv (pages : PdfDocument) (n m : nat) :
  scan_loop pages n = Ok m ->
  exists itemss, map page_items pages = map Ok itemss /\
                 m = (n + list_sum (map page_text_length itemss))%nat.
Proof.
  revert n.
  induction pages as [|p pages IH]; intros n H; simpl in H.
  - injection H as <-. exists []. split; [reflexivity|simpl; lia].
  - destruct p as [page|e]; [|discriminate].
    destruct (getTextContent page) as [items|e] eqn:Ep; [|discriminate].
    destruct (IH _ H) as [itemss [Hm ->]].
    exists (items :: itemss). simpl. rewrite Ep, Hm.
    split; [reflexivity|unfold page_text_length; lia].
Qed.

Lemma firstn_min_length {A} (l : list A) (n : nat) :
  firstn (Nat.min (length l) n) l = firstn n l.
Proof.
  destruct (Nat.le_ge_cases (length l) n) as [H|H].
  - rewrite Nat.min_l by exact H. rewrite firstn_all, firstn_all2 by exact H.
    reflexivity.
  - rewrite Nat.min_r by exact H. reflexivity.
Qed.

(** C9: [isScannedPDF] always resolves (never rejects); it resolves with
    [true] exactly when loading pdf.js and the document succeed, the text
    content of each of the first (at most) three pages is obtained, and
    the lengths of those pages' texts sum to less than 50; on any failure
    it resolves with [false]. *)
Theorem isScannedPDF_first_three_pages (env : Env) (buf : string) (st : St) :
  exists b, fst (isScannedPDF env buf st) = Ok b /\
  (b = true <->
   exists pdf itemss,
     fst (loadPdfJs env st) = Ok tt /\
     pdf_getDocument env buf = Ok pdf /\
     map page_items (firstn 3 pdf) = map Ok itemss /\
     (list_sum (map page_text_length itemss) < 50)%nat).
Proof.
  unfold isScannedPDF, catch, bind, lift, ret.
  destruct (loadPdfJs env st) as [[[]|e] st1] eqn:EL.
  - destruct (pdf_getDocument env buf) as [pdf|e] eqn:ED.
    + rewrite firstn_min_length.
      destruct (scan_loop (firstn 3 pdf) 0) as [m|e] eqn:ES.
      * exists (Nat.ltb m 50). split; [reflexivity|]. split.
        -- intros Hlt. apply Nat.ltb_lt in Hlt.
           destruct (scan_loop_inv _ _ _ ES) as [itemss [Hm ->]].
           exists pdf, itemss. simpl in Hlt.
           split; [reflexivity|split; [reflexivity|split; [exact Hm|exact Hlt]]].
        -- intros (pdf' & itemss & _ & Hd & Hm & Hlt).
           injection Hd as <-.
           rewrite (scan_loop_ok _ _ 0 Hm) in ES. injection ES as <-.
           apply Nat.ltb_lt. exact Hlt.
      * exists false. split; [reflexivity|]. split; [discriminate|].
        intros (pdf' & itemss & _ & Hd & Hm & _).
        injection Hd as <-.
        rewrite (scan_loop_ok _ _ 0 Hm) in ES. discriminate.
    + exists false. split; [reflexivity|]. split; [discriminate|].
      intros (pdf' & itemss & _ & Hd & _). discriminate.
  - exists false. split; [reflexivity|]. split; [discriminate|].
    intros (pdf' & itemss & Hl & _). discriminate.
Qed.

(** ** The memoised pdf.js loader *)

Lemma keeps_ret st {A} (a : A) : keeps st (ret a).
Proof. reflexivity. Qed.

Lemma keeps_throw st {A} (e : string) : keeps st (@throw A e).
Proof. reflexivity. Qed.

Lemma keeps_lift st {A} (e : Exc A) : keeps st (lift e).
Proof. reflexivity. Qed.

Lemma keeps_bind st {A B} (m : M A) (k : A -> M B) :
  keeps st m -> (forall a, keeps st (k a)) -> keeps st (bind m k).
Proof.
  unfold keeps, bind. destruct (m st) as [[a|e] st'] eqn:E; simpl; intros H Hk;
    subst; [apply Hk|reflexivity].
Qed.

Lemma keeps_catch st {A} (m : M A) (h : string -> M A) :
  keeps st m -> (forall e, keeps st (h e)) -> keeps st (catch m h).
Proof.
  unfold keeps, catch. destruct (m st) as [[a|e] st'] eqn:E; simpl; intros H Hh;
    subst; [reflexivity|apply Hh].
Qed.

Lemma keeps_loadPdfJs (env : Env) (st : St) (p : Exc unit) :
  pdfjsLibPromise st = Some p -> keeps st (loadPdfJs env).
Proof. intros H. unfold keeps, loadPdfJs. rewrite H. reflexivity. Qed.

Ltac keeps_step :=
  match goal with
  | |- keeps _ (bind _ _) => apply keeps_bind; [|intros ?]
  | |- keeps _ (catch _ _) => apply keeps_catch; [|intros ?]
  | |- keeps _ (ret _) => apply keeps_ret
  | |- keeps _ (throw _) => apply keeps_throw
  | |- keeps _ (lift _) => apply keeps_lift
  | H : pdfjsLibPromise ?st = Some _ |- keeps ?st (loadPdfJs _) =>
      exact (keeps_loadPdfJs _ _ _ H)
  | |- keeps _ (if ?b then _ else _) => destruct b
  | |- keeps _ (match ?p with (_, _) => _ end) => destruct p
  end.

Ltac keeps_solve := cbv zeta; repeat keeps_step.

Section Cached.

Variables (env : Env) (st : St) (p : Exc unit).
Hypothesis Hcached : pdfjsLibPromise st = Some p.

Lemma keeps_extractTextFromPDF buf : keeps st (extractTextFromPDF env buf).
Proof. unfold extractTextFromPDF. keeps_solve. Qed.

Lemma keeps_isScannedPDF buf : keeps st (isScannedPDF env buf).
Proof. unfold isScannedPDF. keeps_solve. Qed.

Lemma keeps_processScannedPDF buf n : keeps st (processScannedPDF env buf n).
Proof. unfold processScannedPDF. keeps_solve. Qed.

Lemma keeps_extractTextFromFile file : keeps st (extractTextFromFile env file).
Proof.
  unfold extractTextFromFile. keeps_solve.
  unfold extract_by_type. cbv zeta. repeat keeps_step;
    first [ apply keeps_extractTextFromPDF | apply keeps_processScannedPDF ].
Qed.

Lemma keeps_process_loop files : keeps st (process_loop env files).
Proof.
  induction files as [|f files IH]; simpl; repeat keeps_step;
    [apply keeps_extractTextFromFile|exact IH].
Qed.

Lemma keeps_processMultipleFiles files : keeps st (processMultipleFiles env files).
Proof. unfold processMultipleFiles. keeps_solve. apply keeps_process_loop. Qed.

End Cached.

(** C10: [pdfjsLibPromise] is set once, by the first [loadPdfJs] (to the
    outcome of that first script load), and from then on every operation
    of the pipeline leaves the module state unchanged: the cached promise
    stays and no further [<script>] tag is appended.  If the cached
    promise is rejected, every later PDF text extraction and scanned-PDF
    OCR rejects and every scanned-document check answers [false]. *)
Theorem pdfjs_promise_cached_once (env : Env) (st : St) (p : Exc unit)
  (Hcached : pdfjsLibPromise st = Some p) :
  (forall st0, pdfjsLibPromise st0 = None ->
     snd (loadPdfJs env st0)
     = mkSt (Some (fst (loadPdfJs env st0))) (S (scripts_appended st0))) /\
  (forall buf, snd (extractTextFromPDF env buf st) = st) /\
  (forall buf, snd (isScannedPDF env buf st) = st) /\
  (forall buf n, snd (processScannedPDF env buf n st) = st) /\
  (forall file, snd (extractTextFromFile env file st) = st) /\
  (forall files, snd (processMultipleFiles env files st) = st) /\
  (forall e, p = Err e ->
     (forall buf, fst (extractTextFromPDF env buf st)
                  = Err ("Failed to extract text from PDF: " ++ e)) /\
     (forall buf, fst (isScannedPDF env buf st) = Ok false) /\
     (forall buf n, fst (processScannedPDF env buf n st)
                    = Err ("Failed to process scanned PDF: " ++ e))).
Proof.
  split; [|split; [|split; [|split; [|split; [|split]]]]].
  - intros st0 H0. unfold loadPdfJs. rewrite H0.
    destruct (cdn_script_loads env (scripts_appended st0)); reflexivity.
  - exact (keeps_extractTextFromPDF env st p Hcached).
  - exact (keeps_isScannedPDF env st p Hcached).
  - exact (keeps_processScannedPDF env st p Hcached).
  - exact (keeps_extractTextFromFile env st p Hcached).
  - exact (keeps_processMultipleFiles env st p Hcached).
  - intros e ->.
    unfold extractTextFromPDF, isScannedPDF, processScannedPDF,
      catch, bind, loadPdfJs, ret, throw.
    rewrite Hcached. repeat split.
Qed.

(** Witness for C10: after a failed CDN load, a PDF that the loaded
    library could read still fails, and the state is unchanged. *)
Lemma pdfjs_promise_cached_once_witness :
  extractTextFromPDF Samples.env "%PDF-text" Samples.failed_cdn_state =
  (Err "Failed to extract text from PDF: Failed to load PDF.js library from CDN.",
   Samples.failed_cdn_state) /\
  isScannedPDF Samples.env "%PDF-text" Samples.failed_cdn_state =
  (Ok false, Samples.failed_cdn_state).
Proof.
  destruct (pdfjs_promise_cached_once Samples.env Samples.failed_cdn_state
              (Err "Failed to load PDF.js library from CDN.") eq_refl)
    as (_ & Hpdf & Hscan & _ & _ & _ & Herr).
  destruct (Herr _ eq_refl) as (Hpdf' & Hscan' & _).
  split.
  - rewrite (surjective_pairing
               (extractTextFromPDF Samples.env "%PDF-text" Samples.failed_cdn_state)).
    rewrite Hpdf, Hpdf'. reflexivity.
  - rewrite (surjective_pairing
               (isScannedPDF Samples.env "%PDF-text" Samples.failed_cdn_state)).
    rewrite Hscan, Hscan'. reflexivity.
Defined.

(** ** Batches *)

(** When every file passes [validateFile] and can be read, the loop of
    [processMultipleFiles] resolves with one result per file, in input
    order. *)
Lemma process_loop_one_result_per_file (env : Env) (files : list File) (st : St) :
  Forall (fun f => v_success (validateFile f) = true /\ file_readable env f = true) files ->
  exists rs st', process_loop env files st = (Ok rs, st') /\
                 map result_file rs = map (fun f => (name f, size f, type f)) files.
Proof.
  revert st. induction files as [|f files IH]; intros st Hall.
  - exists [], st. split; reflexivity.
  - inversion Hall as [|? ? [Hv Hr] Hrest]; subst.
    destruct (extractTextFromFile_after_read env f st Hv Hr) as (r & st1 & Hf & Hm).
    destruct (IH st1 Hrest) as (rs & st2 & Hl & Hms).
    exists (r :: rs), st2. simpl. unfold bind at 1. rewrite Hf.
    unfold bind. rewrite Hl. split; [reflexivity|].
    simpl. rewrite Hm, Hms. reflexivity.
Qed.

(** C7 (code bug): two files that both pass validation, the second of
    which cannot be read: [file.arrayBuffer()] is awaited outside the
    [try] of [extractTextFromFile], so the whole batch rejects and the
    first file's result is lost. *)
Theorem processMultipleFiles_unreadable_file_rejects_batch :
  b_success (validateMultipleFiles [Samples.txt_file; Samples.locked_pdf]) = true /\
  validFiles (validateMultipleFiles [Samples.txt_file; Samples.locked_pdf])
  = [Samples.txt_file; Samples.locked_pdf] /\
  processMultipleFiles Samples.env [Samples.txt_file; Samples.locked_pdf] initial_state =
  (Err "The requested file could not be read", initial_state).
Proof. split; [reflexivity|split; reflexivity]. Qed.

(** ** The Gemini client *)

Module GeminiFacts.
Import Gemini GeminiSamples.

(** C6: with an API key configured, the default [maxRetries = 3] gives
    at most three attempts, separated by waits of 1000 ms and then
    2000 ms; the first successful attempt's parse is returned, and when
    all three fail the third error is re-raised. *)
Theorem callGeminiAPI_three_attempts_backoff
  (Json : Type) (json_parse : string -> Exc Json) (responses : nat -> Response)
  (k : string) (Hk : k <> "") :
  callGeminiAPI json_parse responses (Some k) 3 =
  match attempt_once json_parse (responses O) with
  | Ok j => ([EvFetch 0], Ok (Some j))
  | Err _ =>
      match attempt_once json_parse (responses 1%nat) with
      | Ok j => ([EvFetch 0; EvSleep 1000; EvFetch 1], Ok (Some j))
      | Err _ =>
          match attempt_once json_parse (responses 2%nat) with
          | Ok j =>
              ([EvFetch 0; EvSleep 1000; EvFetch 1; EvSleep 2000; EvFetch 2],
               Ok (Some j))
          | Err e =>
              ([EvFetch 0; EvSleep 1000; EvFetch 1; EvSleep 2000; EvFetch 2],
               Err e)
          end
      end
  end.
Proof.
  unfold callGeminiAPI.
  destruct (String.eqb_spec k "") as [E|_]; [contradiction|].
  simpl.
  destruct (attempt_once json_parse (responses O)); [reflexivity|].
  destruct (attempt_once json_parse (responses 1%nat)); [reflexivity|].
  destruct (attempt_once json_parse (responses 2%nat)); reflexivity.
Qed.

(** Witness for C6: two failures, then success on the third attempt. *)
Lemma callGeminiAPI_three_attempts_backoff_witness :
  callGeminiAPI parse_id flaky (Some "AIza-test-key") 3 =
  ([EvFetch 0; EvSleep 1000; EvFetch 1; EvSleep 2000; EvFetch 2], Ok (Some "[72]")).
Proof.
  rewrite (callGeminiAPI_three_attempts_backoff string parse_id flaky "AIza-test-key"
             ltac:(discriminate)).
  reflexivity.
Defined.

(** C5 (amended): a response whose nested text field is missing (or
    empty) fails the attempt with ["Invalid response structure from
    API."], and that failure is handled like any other: while attempts
    remain, the client waits the current backoff delay and tries again;
    the error is re-raised only when it occurs on the last attempt. *)
Theorem missing_text_field_retried
  (Json : Type) (json_parse : string -> Exc Json) (responses : nat -> Response)
  (maxRetries fuel attempt : nat) (delay : Z)
  (status : Z) (statusText : string) (text : option string)
  (Hlt : (attempt < maxRetries)%nat)
  (Hresp : responses attempt = Http true status statusText (BodyParsed text))
  (Htext : text = None \/ text = Some "") :
  retry_loop json_parse responses maxRetries (S fuel) attempt delay =
  if Nat.leb maxRetries (S attempt)
  then ([EvFetch attempt], Err "Invalid response structure from API.")
  else let '(trace, r) :=
         retry_loop json_parse responses maxRetries fuel (S attempt) (delay * 2) in
       (EvFetch attempt :: EvSleep delay :: trace, r).
Proof.
  simpl. apply Nat.ltb_lt in Hlt. rewrite Hlt, Hresp.
  destruct Htext as [-> | ->]; reflexivity.
Qed.

(** Witness for C5: a first answer without the text field, under the
    default three attempts. *)
Lemma missing_text_field_retried_witness :
  retry_loop parse_id shapeless_then_ok 3 3 0 1000 =
  ([EvFetch 0; EvSleep 1000; EvFetch 1], Ok (Some "[72]")).
Proof.
  rewrite (missing_text_field_retried string parse_id shapeless_then_ok 3 2 0 1000
             200 "OK" None ltac:(lia) eq_refl (or_introl eq_refl)).
  reflexivity.
Defined.

(** C5 (counterexample): the answer without the text field is followed
    by a 1000 ms wait and a second request, which succeeds. *)
Lemma missing_text_field_is_retried :
  attempt_once parse_id (shapeless_then_ok O) = Err "Invalid response structure from API." /\
  callGeminiAPI parse_id shapeless_then_ok (Some "AIza-test-key") 3 =
  ([EvFetch 0; EvSleep 1000; EvFetch 1], Ok (Some "[72]")).
Proof. split; reflexivity. Qed.

End GeminiFacts.

(** * Further properties of the code *)

(** ** Validation *)

(** [validateMultipleFiles]: a batch of more than [MAX_FILES] files gets
    no valid file and the single count error; otherwise the valid files
    are exactly the files passing [validateFile], in input order, each
    other file contributes one ["name: message"] error, in input order,
    and the batch succeeds exactly when all files pass. *)
Theorem validateMultipleFiles_partition (files : list File) :
  validateMultipleFiles files =
  if Nat.ltb MAX_FILES (length files) then
    mkBatchValidation false []
      ["Maximum 5 files allowed. You selected "
         ++ Js.nat_to_string (length files) ++ " files."]
  else
    mkBatchValidation
      (forallb (fun f => v_success (validateFile f)) files)
      (filter (fun f => v_success (validateFile f)) files)
      (map (fun f => name f ++ ": " ++ v_message (validateFile f))
           (filter (fun f => negb (v_success (validateFile f))) files)).
Proof.
  unfold validateMultipleFiles.
  destruct (Nat.ltb MAX_FILES (length files)); [reflexivity|].
  assert (Hp : partition_files files =
               (filter (fun f => v_success (validateFile f)) files,
                map (fun f => name f ++ ": " ++ v_message (validateFile f))
                    (filter (fun f => negb (v_success (validateFile f))) files))).
  { induction files as [|f files IH]; [reflexivity|].
    simpl. rewrite IH. destruct (v_success (validateFile f)); reflexivity. }
  rewrite Hp. f_equal.
  clear Hp. induction files as [|f files IH]; [reflexivity|].
  simpl. destruct (v_success (validateFile f)); simpl; [exact IH|reflexivity].
Qed.

(** ** The PDF page loops *)

Lemma str_app_assoc (a b c : string) : (a ++ b) ++ c = a ++ (b ++ c).
Proof. induction a as [|x a IH]; simpl; [reflexivity|now rewrite IH]. Qed.

Lemma str_app_empty (a : string) : a ++ "" = a.
Proof. induction a as [|x a IH]; simpl; [reflexivity|now rewrite IH]. Qed.

Lemma pdf_text_loop_ok (pages : PdfDocument) (itemss : list (list string)) (acc : string) :
  map page_items pages = map Ok itemss ->
  pdf_text_loop pages acc
  = Ok (acc ++ str_concat (map (fun items => Js.join " " items ++ "
") itemss)).
Proof.
  revert itemss acc.
  induction pages as [|p pages IH]; intros [|items itemss] acc H; simpl in H;
    try discriminate.
  - simpl. now rewrite str_app_empty.
  - injection H as Hp Hr. destruct p as [page|e]; simpl in Hp; [|discriminate].
    simpl. rewrite Hp, (IH itemss _ Hr). simpl. now rewrite !str_app_assoc.
Qed.

Lemma pdf_text_loop_err (ok : PdfDocument) (itemss : list (list string))
  (bad : Exc PdfPage) (rest : PdfDocument) (e acc : string) :
  map page_items ok = map Ok itemss -> page_items bad = Err e ->
  pdf_text_loop (ok ++ bad :: rest)%list acc = Err e.
Proof.
  revert itemss acc.
  induction ok as [|p ok IH]; intros [|items itemss] acc H Hb; simpl in H;
    try discriminate.
  - destruct bad as [page|e']; simpl in *; [rewrite Hb; reflexivity|congruence].
  - injection H as Hp Hr. destruct p as [page|e']; simpl in Hp; [|discriminate].
    simpl. rewrite Hp. exact (IH itemss _ Hr Hb).
Qed.

(** [extractTextFromPDF]: once pdf.js and the document are loaded, the
    text is the trimmed concatenation of every page's items joined by a
    space and followed by a newline, in page order; a page whose
    [getPage]/[getTextContent] fails makes the whole extraction reject
    with ["Failed to extract text from PDF: "] and that page's error (the
    first such page), never skipping it. *)
Theorem extractTextFromPDF_pages (env : Env) (buf : string) (st : St) (pdf : PdfDocument)
  (Hload : fst (loadPdfJs env st) = Ok tt)
  (Hdoc : pdf_getDocument env buf = Ok pdf) :
  (forall itemss, map page_items pdf = map Ok itemss ->
     fst (extractTextFromPDF env buf st)
     = Ok (Js.trim (str_concat (map (fun items => Js.join " " items ++ "
") itemss)))) /\
  (forall ok itemss bad rest e,
     pdf = (ok ++ bad :: rest)%list ->
     map page_items ok = map Ok itemss -> page_items bad = Err e ->
     fst (extractTextFromPDF env buf st) = Err ("Failed to extract text from PDF: " ++ e)).
Proof.
  unfold extractTextFromPDF, catch, bind, lift, ret, throw.
  destruct (loadPdfJs env st) as [[[]|e0] st1]; simpl in Hload; [|discriminate].
  rewrite Hdoc. split.
  - intros itemss H. rewrite (pdf_text_loop_ok _ _ "" H). reflexivity.
  - intros ok itemss bad rest e -> H Hb.
    rewrite (pdf_text_loop_err _ _ _ _ e "" H Hb). reflexivity.
Qed.

(** Witness: a one-page PDF with two text items; a two-page PDF whose
    second page cannot be fetched. *)
Lemma extractTextFromPDF_pages_witness :
  fst (extractTextFromPDF Samples.env "%PDF-text" initial_state)
  = Ok "Experienced software engineer with ten years of building web applications in JavaScript" /\
  fst (extractTextFromPDF Samples.broken_page_env "%PDF-two" initial_state)
  = Err "Failed to extract text from PDF: Invalid page request".
Proof.
  split.
  - rewrite (proj1 (extractTextFromPDF_pages Samples.env "%PDF-text" initial_state
                      [Ok Samples.text_page] eq_refl eq_refl)
               [["Experienced software engineer with ten years of";
                 "building web applications in JavaScript"]] eq_refl).
    reflexivity.
  - exact (proj2 (extractTextFromPDF_pages Samples.broken_page_env "%PDF-two" initial_state
                    [Ok Samples.text_page; Err "Invalid page request"] eq_refl eq_refl)
             [Ok Samples.text_page]
             [["Experienced software engineer with ten years of";
               "building web applications in JavaScript"]]
             (Err "Invalid page request") [] "Invalid page request"
             eq_refl eq_refl eq_refl).
Defined.

Lemma ocr_loop_ok (env : Env) (pages : PdfDocument) (texts : list string) (acc : string) :
  map (page_ocr env) pages = map Ok texts ->
  ocr_loop env pages acc = Ok (acc ++ str_concat (map (fun t => t ++ "

") texts)).
Proof.
  revert texts acc.
  induction pages as [|p pages IH]; intros [|t texts] acc H; simpl in H;
    try discriminate.
  - simpl. now rewrite str_app_empty.
  - injection H as Hp Hr. destruct p as [page|e]; simpl in Hp; [|discriminate].
    simpl. destruct (render_png page) as [img|e]; [|discriminate].
    rewrite Hp, (IH texts _ Hr). simpl. now rewrite !str_app_assoc.
Qed.

Lemma ocr_loop_err (env : Env) (ok : PdfDocument) (texts : list string)
  (bad : Exc PdfPage) (rest : PdfDocument) (e acc : string) :
  map (page_ocr env) ok = map Ok texts -> page_ocr env bad = Err e ->
  ocr_loop env (ok ++ bad :: rest)%list acc = Err e.
Proof.
  revert texts acc.
  induction ok as [|p ok IH]; intros [|t texts] acc H Hb; simpl in H;
    try discriminate.
  - destruct bad as [page|e']; simpl in *; [|congruence].
    destruct (render_png page) as [img|e']; [rewrite Hb; reflexivity|exact Hb].
  - injection H as Hp Hr. destruct p as [page|e']; simpl in Hp; [|discriminate].
    simpl. destruct (render_png page) as [img|e']; [|discriminate].
    rewrite Hp. exact (IH texts _ Hr Hb).
Qed.

(** [processScannedPDF]: once pdf.js and the document are loaded, the
    text is the trimmed concatenation of every page's OCR text followed
    by a blank line, in page order; a page that cannot be fetched,
    rendered or recognised makes the whole call reject with
    ["Failed to process scanned PDF: "] and that page's error (the first
    such page): no page is silently skipped. *)
Theorem processScannedPDF_pages (env : Env) (buf n : string) (st : St) (pdf : PdfDocument)
  (Hload : fst (loadPdfJs env st) = Ok tt)
  (Hdoc : pdf_getDocument env buf = Ok pdf) :
  (forall texts, map (page_ocr env) pdf = map Ok texts ->
     fst (processScannedPDF env buf n st)
     = Ok (Js.trim (str_concat (map (fun t => t ++ "

") texts)))) /\
  (forall ok texts bad rest e,
     pdf = (ok ++ bad :: rest)%list ->
     map (page_ocr env) ok = map Ok texts -> page_ocr env bad = Err e ->
     fst (processScannedPDF env buf n st) = Err ("Failed to process scanned PDF: " ++ e)).
Proof.
  unfold processScannedPDF, catch, bind, lift, ret, throw.
  destruct (loadPdfJs env st) as [[[]|e0] st1]; simpl in Hload; [|discriminate].
  rewrite Hdoc. split.
  - intros texts H. rewrite (ocr_loop_ok env _ _ "" H). reflexivity.
  - intros ok texts bad rest e -> H Hb.
    rewrite (ocr_loop_err env _ _ _ _ e "" H Hb). reflexivity.
Qed.

(** Witness: the scanned sample PDF is recognised; the text PDF's page
    image is refused by the OCR engine. *)
Lemma processScannedPDF_pages_witness :
  fst (processScannedPDF Samples.env "%PDF-scan" "scan.pdf" initial_state)
  = Ok "Scanned resume text" /\
  fst (processScannedPDF Samples.env "%PDF-text" "cv.pdf" initial_state)
  = Err "Failed to process scanned PDF: Failed to extract text from image: Error attempting to read image.".
Proof.
  split.
  - rewrite (proj1 (processScannedPDF_pages Samples.env "%PDF-scan" "scan.pdf" initial_state
                      [Ok Samples.image_only_page] eq_refl eq_refl)
               ["Scanned resume text"] eq_refl).
    reflexivity.
  - exact (proj2 (processScannedPDF_pages Samples.env "%PDF-text" "cv.pdf" initial_state
                    [Ok Samples.text_page] eq_refl eq_refl)
             [] [] (Ok Samples.text_page) []
             "Failed to extract text from image: Error attempting to read image."
             eq_refl eq_refl eq_refl).
Defined.

(** ** Per-type processing *)

(** Only PDFs touch pdf.js: for a file of any other declared type,
    [extractTextFromFile] leaves the module state (the cached pdf.js
    promise and the injected script count) unchanged. *)
Theorem extractTextFromFile_non_pdf_state (env : Env) (file : File) (st : St)
  (Htype : type file <> "application/pdf") :
  snd (extractTextFromFile env file st) = st.
Proof.
  change (keeps st (extractTextFromFile env file)).
  apply String.eqb_neq in Htype.
  unfold extractTextFromFile. keeps_solve.
  unfold extract_by_type. cbv zeta. rewrite Htype. repeat keeps_step.
Qed.

(** Witness: a JPEG and a GIF leave the initial state as it is. *)
Lemma extractTextFromFile_non_pdf_state_witness :
  snd (extractTextFromFile Samples.env Samples.jpg_file initial_state) = initial_state /\
  snd (extractTextFromFile Samples.env Samples.gif_file initial_state) = initial_state.
Proof.
  split; apply extractTextFromFile_non_pdf_state; discriminate.
Defined.

(** An image that passes validation and can be read goes to Tesseract:
    the OCR text, trimmed, is the result, a blank recognition becomes the
    "No text content" failure, and a recognition error becomes a failure
    result carrying the message; nothing is thrown and the state is
    untouched. *)
Theorem extractTextFromFile_image (env : Env) (file : File) (st : St)
  (Hsize : size file <= MAX_FILE_SIZE)
  (Htype : In (type file) ["image/png"; "image/jpeg"; "image/jpg"])
  (Hread : file_readable env file = true) :
  extractTextFromFile env file st =
  (Ok (match tesseract_recognize env (contents file) with
       | Ok t =>
           if Nat.eqb (String.length (Js.trim t)) 0
           then Failure "No text content found in the file"
                  (name file) (size file) (type file)
           else Success (Js.trim t) "OCR (image)"
                  (name file) (size file) (type file)
       | Err e =>
           Failure ("Failed to extract text from image: " ++ e)
             (name file) (size file) (type file)
       end), st).
Proof.
  apply Z.ltb_ge in Hsize.
  unfold extractTextFromFile, validateFile, arrayBuffer. rewrite Hsize, Hread.
  unfold catch, extract_by_type, extractTextFromImage.
  unfold bind, lift, ret, throw. cbv zeta.
  destruct Htype as [H|[H|[H|[]]]]; rewrite <- H; simpl;
    destruct (tesseract_recognize env (contents file)) as [t|e];
    rewrite ?trim_trim; try reflexivity;
    destruct (Nat.eqb (String.length (Js.trim t)) 0); reflexivity.
Qed.

(** Witness: the sample JPEG is recognised by OCR. *)
Lemma extractTextFromFile_image_witness :
  extractTextFromFile Samples.env Samples.jpg_file initial_state =
  (Ok (Success "Scanned resume text" "OCR (image)" "scan.jpg" 2048 "image/jpg"),
   initial_state).
Proof.
  rewrite (extractTextFromFile_image Samples.env Samples.jpg_file initial_state);
    [reflexivity | vm_compute; discriminate | simpl; tauto | reflexivity].
Defined.

(** A Word file (DOCX or DOC) that passes validation and can be read goes
    to mammoth: the raw text, trimmed, is the result, a blank document
    becomes the "No text content" failure, and an extraction error becomes
    a failure result; nothing is thrown and the state is untouched. *)
Theorem extractTextFromFile_word (env : Env) (file : File) (st : St)
  (Hsize : size file <= MAX_FILE_SIZE)
  (Htype : In (type file)
     ["application/vnd.openxmlformats-officedocument.wordprocessingml.document";
      "application/msword"])
  (Hread : file_readable env file = true) :
  extractTextFromFile env file st =
  (Ok (match mammoth_extractRawText env (contents file) with
       | Ok t =>
           if Nat.eqb (String.length (Js.trim t)) 0
           then Failure "No text content found in the file"
                  (name file) (size file) (type file)
           else Success (Js.trim t) "Word document extraction"
                  (name file) (size file) (type file)
       | Err e =>
           Failure ("Failed to extract text from Word document: " ++ e)
             (name file) (size file) (type file)
       end), st).
Proof.
  apply Z.ltb_ge in Hsize.
  unfold extractTextFromFile, validateFile, arrayBuffer. rewrite Hsize, Hread.
  unfold catch, extract_by_type, extractTextFromDocx.
  unfold bind, lift, ret, throw. cbv zeta.
  destruct Htype as [H|[H|[]]]; rewrite <- H; simpl;
    destruct (mammoth_extractRawText env (contents file)) as [t|e];
    rewrite ?trim_trim; try reflexivity;
    destruct (Nat.eqb (String.length (Js.trim t)) 0); reflexivity.
Qed.

(** Witness: the sample DOC file yields its trimmed text. *)
Lemma extractTextFromFile_word_witness :
  extractTextFromFile Samples.env Samples.doc_file initial_state =
  (Ok (Success "Resume in Word" "Word document extraction" "cv.doc" 64
         "application/msword"), initial_state).
Proof.
  rewrite (extractTextFromFile_word Samples.env Samples.doc_file initial_state);
    [reflexivity | vm_compute; discriminate | simpl; tauto | reflexivity].
Defined.

(** A declared type that is a property name of [Object.prototype] (such
    as "toString") passes [validateFile], because the lookup
    [SUPPORTED_FILE_TYPES[file.type]] finds the inherited property; the
    [switch] then reaches its [default] branch, whose "Unsupported file
    type" error is caught and returned as a failure result. *)
Theorem extractTextFromFile_inherited_type (env : Env) (file : File) (st : St)
  (Hsize : size file <= MAX_FILE_SIZE)
  (Hkey : In (type file) object_prototype_keys)
  (Hread : file_readable env file = true) :
  v_success (validateFile file) = true /\
  extractTextFromFile env file st =
  (Ok (Failure ("Unsupported file type: " ++ type file)
         (name file) (size file) (type file)), st).
Proof.
  apply Z.ltb_ge in Hsize.
  unfold extractTextFromFile, validateFile, arrayBuffer. rewrite Hsize, Hread.
  unfold catch, extract_by_type.
  unfold bind, lift, ret, throw. cbv zeta.
  unfold object_prototype_keys in Hkey.
  repeat destruct Hkey as [H|Hkey]; try contradiction; rewrite <- H;
    split; reflexivity.
Qed.

(** Witness: a file declared as "toString". *)
Lemma extractTextFromFile_inherited_type_witness :
  v_success (validateFile Samples.proto_file) = true /\
  extractTextFromFile Samples.env Samples.proto_file initial_state =
  (Ok (Failure "Unsupported file type: toString" "notes" 10 "toString"),
   initial_state).
Proof.
  apply (extractTextFromFile_inherited_type Samples.env Samples.proto_file
           initial_state);
    [vm_compute; discriminate | simpl; tauto | reflexivity].
Defined.

(** ** The pdf.js loader over a whole session *)

Section OneLoad.

Variables (env : Env) (st : St).

Lemma loadPdfJs_sets_promise :
  pdfjsLibPromise (snd (loadPdfJs env st)) = Some (fst (loadPdfJs env st)).
Proof.
  unfold loadPdfJs. destruct (pdfjsLibPromise st) eqn:E; [exact E|reflexivity].
Qed.

Lemma one_load_ret {A} (a : A) : one_load env st (ret a).
Proof. left; reflexivity. Qed.

Lemma one_load_throw {A} (e : string) : one_load env st (@throw A e).
Proof. left; reflexivity. Qed.

Lemma one_load_lift {A} (e : Exc A) : one_load env st (lift e).
Proof. left; reflexivity. Qed.

Lemma one_load_loadPdfJs : one_load env st (loadPdfJs env).
Proof. right; reflexivity. Qed.

Lemma one_load_bind {A B} (m : M A) (k : A -> M B) :
  one_load env st m -> (forall a, one_load env st (k a)) ->
  (forall a, keeps (snd (loadPdfJs env st)) (k a)) ->
  one_load env st (bind m k).
Proof.
  unfold one_load, keeps, bind.
  destruct (m st) as [[a|e] st'] eqn:E; simpl; intros [H|H] Hk Hl; subst st'.
  - exact (Hk a).
  - right; exact (Hl a).
  - left; reflexivity.
  - right; reflexivity.
Qed.

Lemma one_load_catch {A} (m : M A) (h : string -> M A) :
  one_load env st m -> (forall e, one_load env st (h e)) ->
  (forall e, keeps (snd (loadPdfJs env st)) (h e)) ->
  one_load env st (catch m h).
Proof.
  unfold one_load, keeps, catch.
  destruct (m st) as [[a|e] st'] eqn:E; simpl; intros [H|H] Hh Hl; subst st'.
  - left; reflexivity.
  - right; reflexivity.
  - exact (Hh e).
  - right; exact (Hl e).
Qed.

Ltac one_load_step :=
  match goal with
  | |- one_load _ _ (bind _ _) => apply one_load_bind; [| intros ? | intros ?]
  | |- one_load _ _ (catch _ _) => apply one_load_catch; [| intros ? | intros ?]
  | |- one_load _ _ (ret _) => apply one_load_ret
  | |- one_load _ _ (throw _) => apply one_load_throw
  | |- one_load _ _ (lift _) => apply one_load_lift
  | |- one_load _ _ (loadPdfJs _) => apply one_load_loadPdfJs
  | |- one_load _ _ (if ?b then _ else _) => destruct b
  | |- one_load _ _ (match ?p with (_, _) => _ end) => destruct p
  | |- keeps _ _ => progress (repeat keeps_step)
  end.

Lemma one_load_extractTextFromPDF buf : one_load env st (extractTextFromPDF env buf).
Proof.
  pose proof loadPdfJs_sets_promise as Hc.
  unfold extractTextFromPDF. cbv zeta. repeat one_load_step.
Qed.

Lemma one_load_isScannedPDF buf : one_load env st (isScannedPDF env buf).
Proof.
  pose proof loadPdfJs_sets_promise as Hc.
  unfold isScannedPDF. cbv zeta. repeat one_load_step.
Qed.

Lemma one_load_processScannedPDF buf n :
  one_load env st (processScannedPDF env buf n).
Proof.
  pose proof loadPdfJs_sets_promise as Hc.
  unfold processScannedPDF. cbv zeta. repeat one_load_step.
Qed.

Lemma one_load_extractTextFromFile file :
  one_load env st (extractTextFromFile env file).
Proof.
  pose proof loadPdfJs_sets_promise as Hc.
  unfold extractTextFromFile. cbv zeta. repeat one_load_step;
    unfold extract_by_type; cbv zeta; repeat one_load_step;
    first [ apply one_load_extractTextFromPDF
          | apply one_load_processScannedPDF
          | apply (keeps_extractTextFromPDF _ _ _ Hc)
          | apply (keeps_processScannedPDF _ _ _ Hc) ].
Qed.

Lemma one_load_process_loop files : one_load env st (process_loop env files).
Proof.
  pose proof loadPdfJs_sets_promise as Hc.
  induction files as [|f files IH]; simpl; repeat one_load_step;
    first [ apply one_load_extractTextFromFile | exact IH
          | apply (keeps_process_loop _ _ _ Hc) ].
Qed.

Lemma one_load_processMultipleFiles files :
  one_load env st (processMultipleFiles env files).
Proof.
  unfold processMultipleFiles. cbv zeta. repeat one_load_step.
  apply one_load_process_loop.
Qed.

End OneLoad.

(** Over any sequence of pipeline calls in one page session, the state
    of [fileHandler.js] is either untouched or the one left by the first
    [loadPdfJs]: at most one [<script>] tag is ever appended, and the
    cached promise is the outcome of that first load.  In particular a
    failed CDN load is never retried. *)
Theorem pdfjs_single_script_per_session (env : Env) (ops : list PipelineOp) :
  run_ops env ops initial_state = initial_state \/
  run_ops env ops initial_state =
  mkSt (Some (if cdn_script_loads env 0 then Ok tt
              else Err "Failed to load PDF.js library from CDN.")) 1.
Proof.
  set (loaded := mkSt (Some (if cdn_script_loads env 0 then Ok tt
              else Err "Failed to load PDF.js library from CDN.")) 1).
  assert (Hl : snd (loadPdfJs env initial_state) = loaded) by reflexivity.
  assert (Hop : forall op, run_op env op initial_state = initial_state \/
                           run_op env op initial_state = loaded).
  { intros op. rewrite <- Hl.
    destruct op as [file|files|buf|buf|buf n]; unfold run_op.
    - apply one_load_extractTextFromFile.
    - apply one_load_processMultipleFiles.
    - apply one_load_isScannedPDF.
    - apply one_load_extractTextFromPDF.
    - apply one_load_processScannedPDF. }
  assert (Hkeep : forall op, run_op env op loaded = loaded).
  { intros [file|files|buf|buf|buf n]; unfold run_op.
    - exact (keeps_extractTextFromFile env loaded _ eq_refl file).
    - exact (keeps_processMultipleFiles env loaded _ eq_refl files).
    - exact (keeps_isScannedPDF env loaded _ eq_refl buf).
    - exact (keeps_extractTextFromPDF env loaded _ eq_refl buf).
    - exact (keeps_processScannedPDF env loaded _ eq_refl buf n). }
  assert (Hrest : forall ops, run_ops env ops loaded = loaded).
  { induction ops0 as [|op ops0 IH]; simpl; [reflexivity|].
    rewrite Hkeep. exact IH. }
  induction ops as [|op ops IH]; simpl; [left; reflexivity|].
  destruct (Hop op) as [H|H]; rewrite H; [exact IH|].
  right. apply Hrest.
Qed.

(** ** The retry schedule of [callGeminiAPI] for any [maxRetries] *)

Module GeminiScheduleFacts.
Import Gemini GeminiSchedule.

Section Loop.

Variables (Json : Type) (json_parse : string -> Exc Json)
  (responses : nat -> Response).

Lemma retry_loop_schedule (n fuel a : nat) (d : Z) :
  (a < n)%nat -> (n - a <= fuel)%nat ->
  exists j, (a <= j < n)%nat /\
    fst (retry_loop json_parse responses n fuel a d) = schedule (j - a) a d /\
    (forall i, (a <= i < j)%nat ->
       exists e, attempt_once json_parse (responses i) = Err e) /\
    match attempt_once json_parse (responses j) with
    | Ok v => snd (retry_loop json_parse responses n fuel a d) = Ok (Some v)
    | Err e => snd (retry_loop json_parse responses n fuel a d) = Err e /\
               S j = n
    end.
Proof.
  revert a d. induction fuel as [|fuel IH]; intros a d Ha Hf; [lia|].
  simpl. apply Nat.ltb_lt in Ha as Hlt. rewrite Hlt.
  destruct (attempt_once json_parse (responses a)) as [v|e] eqn:E.
  - exists a. rewrite Nat.sub_diag, E. repeat split; try lia;
    intros i Hi; lia.
  - destruct (Nat.leb n (S a)) eqn:Hle.
    + apply Nat.leb_le in Hle.
      exists a. rewrite Nat.sub_diag, E. repeat split; try lia;
      intros i Hi; lia.
    + apply Nat.leb_gt in Hle.
      destruct (IH (S a) (d * 2)) as (j & Hj & Htr & Hbefore & Hat); [lia|lia|].
      destruct (retry_loop json_parse responses n fuel (S a) (d * 2))
        as [trace r] eqn:Er.
      simpl in *. exists j. split; [lia|]. split; [|split].
      * replace (j - a)%nat with (S (j - S a)) by lia. simpl. rewrite Htr.
        reflexivity.
      * intros i Hi. destruct (Nat.eq_dec i a) as [->|Hne]; [eexists; exact E|].
        apply Hbefore. lia.
      * exact Hat.
Qed.

End Loop.

(** For any [maxRetries] n and a configured key, [callGeminiAPI] makes
    requests 0, 1, ..., j for some j < n, separated by waits of 1000,
    2000, 4000, ... ms; every request before the last failed; the result
    is the last request's outcome, and it is an error only when that
    request was the n-th.  With n = 0 no request is made at all and the
    function returns [undefined]. *)
Theorem callGeminiAPI_schedule (Json : Type) (json_parse : string -> Exc Json)
  (responses : nat -> Response) (k : string) (Hk : k <> "") (n : nat) :
  (n = O /\ callGeminiAPI json_parse responses (Some k) n = ([], Ok None)) \/
  exists j, (j < n)%nat /\
    fst (callGeminiAPI json_parse responses (Some k) n) = schedule j 0 1000 /\
    (forall i, (i < j)%nat ->
       exists e, attempt_once json_parse (responses i) = Err e) /\
    match attempt_once json_parse (responses j) with
    | Ok v => snd (callGeminiAPI json_parse responses (Some k) n) = Ok (Some v)
    | Err e => snd (callGeminiAPI json_parse responses (Some k) n) = Err e /\
               S j = n
    end.
Proof.
  unfold callGeminiAPI.
  destruct (String.eqb_spec k "") as [E|_]; [contradiction|].
  destruct n as [|n]; [left; split; reflexivity|right].
  destruct (retry_loop_schedule Json json_parse responses (S n) (S n) 0 1000)
    as (j & Hj & Htr & Hbefore & Hat); [lia|lia|].
  exists j. rewrite Nat.sub_0_r in Htr. split; [lia|]. split; [exact Htr|].
  split; [|exact Hat].
  intros i Hi. apply Hbefore. lia.
Qed.

(** Witness: with five retries and a server that fails twice, the third
    request succeeds after waits of 1000 and 2000 ms. *)
Lemma callGeminiAPI_schedule_witness :
  exists j, (j < 5)%nat /\
    fst (callGeminiAPI GeminiSamples.parse_id GeminiSamples.flaky (Some "key") 5)
      = schedule j 0 1000.
Proof.
  destruct (callGeminiAPI_schedule string GeminiSamples.parse_id
              GeminiSamples.flaky "key" ltac:(discriminate) 5)
    as [[H _]|(j & Hj & Htr & _)]; [discriminate|].
  exists j. split; [exact Hj|exact Htr].
Defined.

End GeminiScheduleFacts.

(** ** The upload component and the application *)

Module UploadFacts.
Import Upload AppState.

Lemma filter_index_past (index j : nat) (l : list ExtractionResult) :
  (index < j)%nat -> filter_index index j l = l.
Proof.
  revert j. induction l as [|x l IH]; intros j Hj; simpl; [reflexivity|].
  destruct (Nat.eqb_spec j index) as [E|_]; [lia|].
  rewrite IH; [reflexivity|lia].
Qed.

Lemma filter_index_split (index j : nat) (l : list ExtractionResult) :
  (j <= index)%nat ->
  filter_index index j l =
  (firstn (index - j) l ++ skipn (S (index - j)) l)%list.
Proof.
  revert j. induction l as [|x l IH]; intros j Hj; simpl.
  - destruct (index - j)%nat; reflexivity.
  - destruct (Nat.eqb_spec j index) as [E|E].
    + subst j. rewrite Nat.sub_diag. simpl.
      apply filter_index_past. lia.
    + rewrite IH by lia.
      replace (index - j)%nat with (S (index - S j)) by lia. reflexivity.
Qed.

(** [removeFile(index)] drops exactly the entry at [index] (and nothing
    when [index] is past the end), keeps the others in order, and hands
    the new list to [onFilesProcessed]. *)
Theorem removeFile_drops_index (index : nat) (uploadedFiles : list ExtractionResult) :
  removeFile index uploadedFiles =
  ((firstn index uploadedFiles ++ skipn (S index) uploadedFiles)%list,
   [OnFilesProcessed (firstn index uploadedFiles ++ skipn (S index) uploadedFiles)%list]) /\
  ((length uploadedFiles <= index)%nat -> fst (removeFile index uploadedFiles) = uploadedFiles) /\
  ((index < length uploadedFiles)%nat ->
   length (fst (removeFile index uploadedFiles)) = pred (length uploadedFiles)).
Proof.
  assert (Hs : filter_index index 0 uploadedFiles =
               (firstn index uploadedFiles ++ skipn (S index) uploadedFiles)%list).
  { rewrite filter_index_split by lia. rewrite Nat.sub_0_r. reflexivity. }
  unfold removeFile. simpl. rewrite Hs. split; [reflexivity|split].
  - intros H. rewrite firstn_all2 by lia. rewrite skipn_all2 by lia.
    apply app_nil_r.
  - intros H. rewrite length_app, length_firstn, length_skipn. lia.
Qed.

Lemma length_filter_split {A} (p : A -> bool) (l : list A) :
  (length (filter p l) + length (filter (fun x => negb (p x)) l))%nat = length l.
Proof.
  induction l as [|x l IH]; simpl; [reflexivity|].
  destruct (p x); simpl; lia.
Qed.

Lemma partition_files_no_errors (files : list File) :
  snd (partition_files files) = [] -> fst (partition_files files) = files.
Proof.
  induction files as [|f files IH]; simpl; [reflexivity|].
  destruct (partition_files files) as [vs es]. simpl in *.
  destruct (v_success (validateFile f)); simpl; [|discriminate].
  intros H. rewrite (IH H). reflexivity.
Qed.

Lemma process_loop_length (env : Env) (files : list File) (st st' : St)
  (rs : list ExtractionResult) :
  process_loop env files st = (Ok rs, st') -> length rs = length files.
Proof.
  revert st st' rs. induction files as [|f files IH]; intros st st' rs H; simpl in H.
  - injection H as <- _. reflexivity.
  - unfold bind in H. destruct (extractTextFromFile env f st) as [[r|e] st1].
    + destruct (process_loop env files st1) as [[rs'|e] st2] eqn:E.
      * injection H as <- _. simpl. f_equal. exact (IH _ _ _ E).
      * discriminate.
    + discriminate.
Qed.

Lemma processMultipleFiles_length (env : Env) (files : list File) (st st' : St)
  (rs : list ExtractionResult) :
  processMultipleFiles env files st = (Ok rs, st') -> length rs = length files.
Proof.
  unfold processMultipleFiles, validateMultipleFiles.
  destruct (Nat.ltb MAX_FILES (length files)); [discriminate|].
  destruct (partition_files files) as [vs es] eqn:E. simpl.
  destruct (Nat.eqb_spec (length es) 0) as [Hes|_]; [|discriminate].
  destruct es; [|discriminate]. simpl.
  assert (Hvs : vs = files).
  { pose proof (partition_files_no_errors files) as Hp. rewrite E in Hp.
    exact (Hp eq_refl). }
  subst vs. apply process_loop_length.
Qed.

(** [handleFiles] with no files does nothing; with at least one file it
    always calls back (with [onError] or [onFilesProcessed]); and every
    [onFilesProcessed] call it makes carries the new [uploadedFiles]:
    a non-empty list of successful results only. *)
Theorem handleFiles_callbacks (env : Env) (files : list File)
  (uploadedFiles : list ExtractionResult) (st : St) :
  (files = [] -> handleFiles env files uploadedFiles st = ([], uploadedFiles, st)) /\
  (files <> [] -> fst (fst (handleFiles env files uploadedFiles st)) <> []) /\
  (forall fs, In (OnFilesProcessed fs) (fst (fst (handleFiles env files uploadedFiles st))) ->
     fs = snd (fst (handleFiles env files uploadedFiles st)) /\ fs <> [] /\
     forallb is_success fs = true).
Proof.
  unfold handleFiles.
  destruct files as [|f fs0]; simpl.
  { split; [reflexivity|split; [congruence|]]. intros fs []. }
  split; [discriminate|].
  destruct (processMultipleFiles env (f :: fs0) st) as [[results|m] st'] eqn:Hp.
  - apply processMultipleFiles_length in Hp.
    pose proof (length_filter_split is_success results) as Hl.
    assert (Hfs : forallb is_success (filter is_success results) = true).
    { apply forallb_forall. intros x Hx. apply filter_In in Hx. apply Hx. }
    destruct (Nat.ltb_spec 0 (length (filter (fun r => negb (is_success r)) results)))
      as [Hf|Hf];
    destruct (Nat.ltb_spec 0 (length (filter is_success results))) as [Hs|Hs];
      simpl in *.
    + split; [discriminate|]. intros fs [H|[H|[]]]; [discriminate|].
      injection H as <-. split; [reflexivity|split; [|exact Hfs]].
      intros E. rewrite E in Hs. simpl in Hs. lia.
    + split; [discriminate|]. intros fs [H|[]]. discriminate.
    + split; [discriminate|]. intros fs [H|[]]. injection H as <-.
      split; [reflexivity|split; [|exact Hfs]].
      intros E. rewrite E in Hs. simpl in Hs. lia.
    + exfalso. simpl in Hp. lia.
  - split; [discriminate|]. intros fs [H|[]]. discriminate.
Qed.

(** When a batch resolves with some successful and some failed files,
    the component makes exactly two calls: [onError] with
    "Some files failed to process: " and the failure lines, then
    [onFilesProcessed] with the successful results; in the application the second handler resets
    [uploadError] to the empty string, so the failure message does not
    survive the call, and the resume becomes the successful texts joined
    by the separator. *)
Theorem handleFiles_partial_failure_error_cleared (env : Env) (files : list File)
  (uploadedFiles : list ExtractionResult) (st st' : St) (s : AppState)
  (results : list ExtractionResult)
  (Hrun : processMultipleFiles env files st = (Ok results, st'))
  (Hs : existsb is_success results = true)
  (Hf : existsb (fun r => negb (is_success r)) results = true) :
  fst (fst (handleFiles env files uploadedFiles st)) =
    [OnError ("Some files failed to process: "
                ++ Js.join ", " (map failure_line
                                   (filter (fun r => negb (is_success r)) results)));
     OnFilesProcessed (filter is_success results)] /\
  uploadError (apply_events s (fst (fst (handleFiles env files uploadedFiles st)))) = "" /\
  resume (apply_events s (fst (fst (handleFiles env files uploadedFiles st)))) =
  Js.join "

---

" (map result_text (filter is_success results)).
Proof.
  assert (Hne : files <> []).
  { intros ->. unfold processMultipleFiles in Hrun. simpl in Hrun.
    injection Hrun as <- _. discriminate. }
  assert (Hlen : forall (q : ExtractionResult -> bool) l,
            existsb q l = true -> Nat.ltb 0 (length (filter q l)) = true).
  { intros q l H. apply Nat.ltb_lt. apply existsb_exists in H as [x [Hx Hq]].
    destruct (filter q l) eqn:E; simpl; [|lia].
    assert (In x (filter q l)) by (apply filter_In; auto). rewrite E in H. contradiction. }
  unfold handleFiles.
  destruct (Nat.eqb_spec (length files) 0) as [E|_].
  { destruct files; [contradiction|discriminate]. }
  rewrite Hrun. cbv zeta. rewrite (Hlen _ _ Hs), (Hlen _ _ Hf). simpl.
  split; [reflexivity|split; reflexivity].
Qed.

(** Witness: a text file and an unreadable PNG. *)
Lemma handleFiles_partial_failure_error_cleared_witness :
  uploadError
    (apply_events (mkApp "" "")
       (fst (fst (handleFiles Samples.env [Samples.txt_file; Samples.bad_png]
                    [] initial_state)))) = "".
Proof.
  eapply (handleFiles_partial_failure_error_cleared Samples.env
            [Samples.txt_file; Samples.bad_png] [] initial_state).
  - reflexivity.
  - reflexivity.
  - reflexivity.
Defined.

Lemma process_loop_success_texts (env : Env) (files : list File) (st st' : St)
  (rs : list ExtractionResult) :
  process_loop env files st = (Ok rs, st') ->
  Forall (fun r => is_success r = true ->
                   String.length (Js.trim (result_text r)) <> 0%nat) rs.
Proof.
  revert st st' rs. induction files as [|f files IH]; intros st st' rs H; simpl in H.
  - injection H as <- _. constructor.
  - unfold bind in H.
    destruct (extractTextFromFile env f st) as [[r|e] st1] eqn:Ef; [|discriminate].
    destruct (process_loop env files st1) as [[rs'|e] st2] eqn:E; [|discriminate].
    injection H as <- _. constructor; [|exact (IH _ _ _ E)].
    destruct r as [t m n sz ty|]; simpl; [|discriminate].
    intros _. exact (extractTextFromFile_success_not_blank _ _ _ _ _ _ _ _ _ Ef).
Qed.

Lemma processMultipleFiles_success_texts (env : Env) (files : list File) (st st' : St)
  (rs : list ExtractionResult) :
  processMultipleFiles env files st = (Ok rs, st') ->
  Forall (fun r => is_success r = true ->
                   String.length (Js.trim (result_text r)) <> 0%nat) rs.
Proof.
  unfold processMultipleFiles.
  destruct (negb (b_success (validateMultipleFiles files))); [discriminate|].
  apply process_loop_success_texts.
Qed.

Lemma join_nonempty (sep x : string) (l : list string) :
  x <> "" -> Js.join sep (x :: l) <> "".
Proof.
  intros Hx. destruct l as [|y l]; simpl; [exact Hx|].
  destruct x; [contradiction|discriminate].
Qed.

(** Every list [handleFiles] hands to [onFilesProcessed] is made of
    texts that are not blank, so the resume the application builds from
    it is never the empty string (the [!resume] guard of [handleAnalyze]
    lets it through). *)
Theorem handleFiles_resume_nonblank (env : Env) (files : list File)
  (uploadedFiles : list ExtractionResult) (st : St) (s : AppState)
  (fs : list ExtractionResult)
  (Hin : In (OnFilesProcessed fs) (fst (fst (handleFiles env files uploadedFiles st)))) :
  Forall (fun t => String.length (Js.trim t) <> 0%nat) (map result_text fs) /\
  resume (handleFilesProcessed fs s) <> "".
Proof.
  unfold handleFiles in Hin.
  destruct (Nat.eqb (length files) 0); [destruct Hin|].
  destruct (processMultipleFiles env files st) as [[results|m] st'] eqn:Hp.
  2:{ destruct Hin as [H|[]]; discriminate. }
  apply processMultipleFiles_success_texts in Hp.
  cbv zeta in Hin.
  assert (Hall : Forall (fun t => String.length (Js.trim t) <> 0%nat)
                   (map result_text (filter is_success results))).
  { apply Forall_map. apply Forall_forall. intros r Hr.
    apply filter_In in Hr as [Hr Hs].
    rewrite Forall_forall in Hp. exact (Hp r Hr Hs). }
  destruct (Nat.ltb_spec 0 (length (filter is_success results))) as [Hlt|_].
  2:{ destruct (Nat.ltb 0 _); [destruct Hin as [H|[]]|destruct Hin]; discriminate. }
  assert (Hfs : fs = filter is_success results).
  { destruct (Nat.ltb 0 _); simpl in Hin;
      [destruct Hin as [H|[H|[]]]|destruct Hin as [H|[]]];
      try discriminate; injection H as <-; reflexivity. }
  subst fs. split; [exact Hall|].
  unfold handleFilesProcessed. simpl.
  destruct (map result_text (filter is_success results)) as [|t ts] eqn:Em.
  { destruct (filter is_success results); [simpl in Hlt; lia|discriminate]. }
  apply join_nonempty. inversion Hall as [|? ? Ht]; subst.
  intros ->. apply Ht. reflexivity.
Qed.

(** Witness: a Word document delivered to the application. *)
Lemma handleFiles_resume_nonblank_witness :
  resume (handleFilesProcessed
            [Success "Resume in Word" "Word document extraction" "cv.doc" 64
               "application/msword"] (mkApp "" "")) <> "".
Proof.
  apply (handleFiles_resume_nonblank Samples.env [Samples.doc_file] [] initial_state
           (mkApp "" "")).
  vm_compute. left. reflexivity.
Defined.

End UploadFacts.
